(** * video_encoder.py: the media prober, the progress tracker and the
      size-reduction log, embedded in Rocq

    The development follows [src/video_encoder.py]:

    - [get_video_info]        (lines 103-150)  the ffprobe wrapper;
    - [create_progress_bar]   (lines 152-156);
    - [encode_video]          (lines 158-320)  its progress loop, one line at a
      time ([observe]), and its exit handling;
    - [calculate_size_reduction], [format_duration], [encode_and_log].

    Modelling conventions.

    - Python [int] is [Z]; [//] and [%] are [Z.div] and [Z.modulo] (both round
      toward minus infinity for a positive divisor, as Python does).
    - Python [float] is modelled by an exact rational ([Q]): arithmetic is
      performed without rounding, overflow, infinities or NaN.  [int(x)] on a
      float truncates toward zero ([int_of_float]).  The literals [inf] and
      [nan] have no counterpart and are rejected by [float_of_str].
    - Python [str] is [string]; text is ASCII except for the two block
      characters of the progress bar, which are written as their UTF-8 bytes.
      [str.strip] and [\s] take the whitespace of [str.isspace]; [int] and
      [float] skip the blanks of the C locale around their argument.
    - An exception raised inside a [try] block is an absent result ([None]) of
      the sub-computation that raises; the handler's value is substituted where
      the source's [except] clause stands.  Every division whose divisor can be
      zero in the source is guarded here the same way ([Q]'s own division is
      total). *)

From Stdlib Require Import ZArith QArith Qround Qabs Qpower List String Ascii Lia Bool.
From Stdlib Require Import DecimalString DecimalZ DecimalPos DecimalN.
From Stdlib Require Import SpecFloat.
Import ListNotations.
Local Open Scope string_scope.
Local Open Scope Z_scope.

(** ** Python's [str] methods used by the script *)

Module Py.

(** [str.isspace] on one ASCII character: TAB, LF, VT, FF, CR, the four
    separators FS..US and the blank. *)
Definition isspace (c : ascii) : bool :=
  let n := nat_of_ascii c in
  (Nat.leb 9 n && Nat.leb n 13) || (Nat.leb 28 n && Nat.leb n 32).

(** [\d] restricted to ASCII. *)
Definition isdigit (c : ascii) : bool :=
  let n := nat_of_ascii c in Nat.leb 48 n && Nat.leb n 57.

Fixpoint lstrip (s : string) : string :=
  match s with
  | EmptyString => EmptyString
  | String c r => if isspace c then lstrip r else s
  end.

Fixpoint rstrip (s : string) : string :=
  match s with
  | EmptyString => EmptyString
  | String c r =>
      match rstrip r with
      | EmptyString => if isspace c then EmptyString else String c EmptyString
      | r' => String c r'
      end
  end.

(** [s.strip()] *)
Definition strip (s : string) : string := rstrip (lstrip s).

(** [s.startswith(p)] *)
Definition startswith (p s : string) : bool := String.prefix p s.

(** [c in s] for a one-character [c]. *)
Fixpoint contains (c : ascii) (s : string) : bool :=
  match s with
  | EmptyString => false
  | String d r => Ascii.eqb c d || contains c r
  end.

(** [s.split(sep)] for a one-character separator: never the empty list. *)
Fixpoint split (sep : ascii) (s : string) : list string :=
  match s with
  | EmptyString => [EmptyString]
  | String c r =>
      if Ascii.eqb c sep then EmptyString :: split sep r
      else match split sep r with
           | hd :: tl => String c hd :: tl
           | [] => [String c EmptyString]
           end
  end.

(** [s * n]: the empty string when [n <= 0]. *)
Fixpoint repeat_nat (s : string) (n : nat) : string :=
  match n with
  | O => EmptyString
  | S k => s ++ repeat_nat s k
  end.

Definition repeat (s : string) (n : Z) : string := repeat_nat s (Z.to_nat n).

(** [s.rjust(width)], the default alignment of a formatted number. *)
Definition rjust (width : nat) (s : string) : string :=
  repeat_nat " " (width - String.length s) ++ s.

(** The whitespace [int] and [float] skip around an ASCII text: TAB, LF,
    VT, FF, CR and the blank (the separators FS..US are not skipped). *)
Definition isblank (c : ascii) : bool :=
  let n := nat_of_ascii c in
  (Nat.leb 9 n && Nat.leb n 13) || Nat.eqb n 32.

Fixpoint lskip (s : string) : string :=
  match s with
  | EmptyString => EmptyString
  | String c r => if isblank c then lskip r else s
  end.

Fixpoint rskip (s : string) : string :=
  match s with
  | EmptyString => EmptyString
  | String c r =>
      match rskip r with
      | EmptyString => if isblank c then EmptyString else String c EmptyString
      | r' => String c r'
      end
  end.

Definition skip_blanks (s : string) : string := rskip (lskip s).

(** [str(n)] for an [int]. *)
Definition str_int (n : Z) : string := NilZero.string_of_int (Z.to_int n).

(** The digits of a [digit ("_"? digit)*] text with the underscores removed;
    [None] when the text is not of that shape.  [prev] tells whether the
    character before was a digit. *)
Fixpoint digit_groups (prev : bool) (s : string) : option string :=
  match s with
  | EmptyString => if prev then Some EmptyString else None
  | String c r =>
      if isdigit c then option_map (String c) (digit_groups true r)
      else if Ascii.eqb c "_" && prev then digit_groups false r
      else None
  end.

(** The value of a run of decimal digits. *)
Definition digits_value (ds : string) : option Z :=
  option_map Z.of_uint (NilEmpty.uint_of_string ds).

Definition unsigned_int (s : string) : option Z :=
  match digit_groups false s with
  | Some ds => digits_value ds
  | None => None
  end.

(** [int(s)]: surrounding blanks, an optional sign, decimal digits.
    [None] stands for [ValueError]. *)
Definition int_of_str (s : string) : option Z :=
  match skip_blanks s with
  | String "-" r => option_map Z.opp (unsigned_int r)
  | String "+" r => unsigned_int r
  | r => unsigned_int r
  end.

(** The longest prefix of shape [digit ("_"? digit)*], underscores removed,
    and what follows it. *)
Fixpoint scan_digits (s : string) : string * string :=
  match s with
  | EmptyString => (EmptyString, EmptyString)
  | String c r =>
      if isdigit c then
        let '(ds, rest) :=
          match r with
          | String u r2 =>
              if Ascii.eqb u "_"
                 && match r2 with String d _ => isdigit d | EmptyString => false end
              then scan_digits r2 else scan_digits r
          | EmptyString => (EmptyString, EmptyString)
          end in
        (String c ds, rest)
      else (EmptyString, s)
  end.

Definition pow10 (e : Z) : Q :=
  if 0 <=? e then inject_Z (10 ^ e) else Qinv (inject_Z (10 ^ (- e))).

(** The exponent part of a float literal: nothing, or [e] / [E], an optional
    sign and digits up to the end of the text. *)
Definition exponent (s : string) : option Z :=
  match s with
  | EmptyString => Some 0
  | String c r =>
      if Ascii.eqb c "e" || Ascii.eqb c "E" then
        let '(neg, r) :=
          match r with
          | String "-" r' => (true, r')
          | String "+" r' => (false, r')
          | _ => (false, r)
          end in
        match scan_digits r with
        | (EmptyString, _) => None
        | (ds, EmptyString) =>
            option_map (fun e => if neg then - e else e) (digits_value ds)
        | _ => None
        end
      else None
  end.

(** An unsigned finite float literal:
    [digits] [[.] [digits]] [exponent] with a digit in the mantissa. *)
Definition unsigned_float (s : string) : option Q :=
  let '(ip, r1) := scan_digits s in
  let '(fp, r2) :=
    match r1 with
    | String "." r => scan_digits r
    | _ => (EmptyString, r1)
    end in
  match ip, fp with
  | EmptyString, EmptyString => None
  | _, _ =>
      match digits_value (ip ++ fp), exponent r2 with
      | Some m, Some e =>
          Some (inject_Z m / inject_Z (10 ^ Z.of_nat (String.length fp)) * pow10 e)%Q
      | _, _ => None
      end
  end.

(** [float(s)] for finite decimal literals.  [None] stands for [ValueError];
    the literals [inf], [infinity] and [nan], which denote no rational, are
    rejected like any other text. *)
Definition float_of_str (s : string) : option Q :=
  match skip_blanks s with
  | String "-" r => option_map Qopp (unsigned_float r)
  | String "+" r => unsigned_float r
  | r => unsigned_float r
  end.

(** [int(x)] for a float: truncation toward zero. *)
Definition int_of_float (x : Q) : Z := Z.quot (Qnum x) (Zpos (Qden x)).

(** Truth value of a float: non-zero. *)
Definition float_truthy (x : Q) : bool := negb (Qnum x =? 0).

End Py.

(** ** Format specifications of the f-strings *)

Module Fmt.

Definition zeros (n : nat) : string := Py.repeat_nat "0" n.

(** [{n:0Wd}]: sign-aware zero padding to width [W]. *)
Definition d_zero (width : nat) (n : Z) : string :=
  if n <? 0 then
    let ds := Py.str_int (- n) in
    "-" ++ zeros (width - 1 - String.length ds) ++ ds
  else
    let ds := Py.str_int n in
    zeros (width - String.length ds) ++ ds.

(** [{n:Wd}]: right-aligned in width [W]. *)
Definition d (width : nat) (n : Z) : string := Py.rjust width (Py.str_int n).

(** Rounding of a non-negative rational to the nearest integer, ties to the
    even one. *)
Definition round_half_even (x : Q) : Z :=
  let f := Qfloor x in
  match (2 * (x - inject_Z f) ?= 1)%Q with
  | Lt => f
  | Gt => f + 1
  | Eq => if Z.even f then f else f + 1
  end.

(** [{x:.1f}]: one digit after the point, the value correctly rounded. *)
Definition f1 (x : Q) : string :=
  let t := round_half_even (Qabs x * 10) in
  (if Qlt_le_dec x 0 then "-" else "")
  ++ Py.str_int (t / 10) ++ "." ++ Py.str_int (t mod 10).

(** [{x:W.1f}] *)
Definition f1w (width : nat) (x : Q) : string := Py.rjust width (f1 x).

End Fmt.

(** ** The six patterns of the progress-line grammar, as [re.search] finds them *)

Module Re.

(** [s] minus the literal [p] when [s] starts with it. *)
Fixpoint strip_prefix (p s : string) : option string :=
  match p, s with
  | EmptyString, _ => Some s
  | String a p', String b s' => if Ascii.eqb a b then strip_prefix p' s' else None
  | String _ _, EmptyString => None
  end.

(** The longest prefix of characters satisfying [f], and the rest. *)
Fixpoint take_while (f : ascii -> bool) (s : string) : string * string :=
  match s with
  | EmptyString => (EmptyString, EmptyString)
  | String c r =>
      if f c then let '(t, rest) := take_while f r in (String c t, rest)
      else (EmptyString, s)
  end.

(** [\d+]: the greedy run of digits, which must not be empty. *)
Definition digits1 (s : string) : option (string * string) :=
  match take_while Py.isdigit s with
  | (EmptyString, _) => None
  | (ds, rest) => Some (ds, rest)
  end.

(** [[\d.]+] *)
Definition numchars1 (s : string) : option (string * string) :=
  match take_while (fun c => Py.isdigit c || Ascii.eqb c ".") s with
  | (EmptyString, _) => None
  | (ds, rest) => Some (ds, rest)
  end.

(** [re.search]: the match at the leftmost position where the pattern
    matches. *)
Fixpoint search {A : Type} (at_pos : string -> option A) (s : string) : option A :=
  match at_pos s with
  | Some a => Some a
  | None =>
      match s with
      | EmptyString => None
      | String _ r => search at_pos r
      end
  end.

(** [key\s*(\d+)]: group 1. *)
Definition key_digits (key : string) (s : string) : option string :=
  match strip_prefix key s with
  | Some r => option_map fst (digits1 (Py.lstrip r))
  | None => None
  end.

(** [key\s*([\d.]+)suffix]: group 1. *)
Definition key_number_suffix (key suffix : string) (s : string) : option string :=
  match strip_prefix key s with
  | Some r =>
      match numchars1 (Py.lstrip r) with
      | Some (g, rest) => if Py.startswith suffix rest then Some g else None
      | None => None
      end
  | None => None
  end.

(** [frame=\s*(\d+)] *)
Definition frame_re : string -> option string := search (key_digits "frame=").

(** [speed=\s*([\d.]+)x] *)
Definition speed_re : string -> option string :=
  search (key_number_suffix "speed=" "x").

(** [fps=\s*(\d+)] *)
Definition fps_re : string -> option string := search (key_digits "fps=").

(** [size=\s*(\d+)KiB] *)
Definition size_at (s : string) : option string :=
  match strip_prefix "size=" s with
  | Some r =>
      match digits1 (Py.lstrip r) with
      | Some (g, rest) => if Py.startswith "KiB" rest then Some g else None
      | None => None
      end
  | None => None
  end.

Definition size_re : string -> option string := search size_at.

(** [time=(\d+):(\d+):(\d+\.\d+)]: groups 1, 2 and 3. *)
Definition time_at (s : string) : option (string * string * string) :=
  match strip_prefix "time=" s with
  | Some r =>
      match digits1 r with
      | Some (h, String ":" r1) =>
          match digits1 r1 with
          | Some (m, String ":" r2) =>
              match digits1 r2 with
              | Some (sec, String "." r3) =>
                  match digits1 r3 with
                  | Some (frac, _) => Some (h, m, sec ++ "." ++ frac)
                  | None => None
                  end
              | _ => None
              end
          | _ => None
          end
      | _ => None
      end
  | None => None
  end.

Definition time_re : string -> option (string * string * string) := search time_at.

(** [bitrate=\s*([\d.]+)kbits/s] *)
Definition bitrate_re : string -> option string :=
  search (key_number_suffix "bitrate=" "kbits/s").

End Re.

(** ** Media prober: [get_video_info] *)

(** The dictionary [get_video_info] returns. *)
Record MediaInfo : Type := {
  frame_count : option Z;
  fps : option Q;
  duration : option Q
}.

(** The handler's dictionary (lines 146-150). *)
Definition no_info : MediaInfo :=
  {| frame_count := None; fps := None; duration := None |}.

(** What [subprocess.check_output(probe_cmd, ...)] does: it raises
    ([CalledProcessError] on a non-zero exit, [OSError] when the tool cannot
    be started) or returns the tool's standard output. *)
Inductive probe_run : Type :=
| ProbeRaised
| ProbeOutput (stdout : string).

(** Lines 126-131: the frame rate, [N/D] or a decimal.  [None] when a
    statement of the block raises ([ValueError] from [int], [float] or the
    unpacking, [ZeroDivisionError] from [num / den]). *)
Definition parse_fps (fps_fraction : string) : option Q :=
  if Py.contains "/" fps_fraction then
    match map Py.int_of_str (Py.split "/" fps_fraction) with
    | [Some num; Some den] =>
        if den =? 0 then None else Some (inject_Z num / inject_Z den)%Q
    | _ => None
    end
  else Py.float_of_str fps_fraction.

(** Line 137: [int(duration * fps) if duration and fps else None]. *)
Definition count_frames (duration fps : Q) : option Z :=
  if Py.float_truthy duration && Py.float_truthy fps
  then Some (Py.int_of_float (duration * fps)%Q)
  else None.

(** Lines 105-150.  The argument is the outcome of running the inspection
    tool on the input file. *)
Definition get_video_info (probe : probe_run) : MediaInfo :=
  match probe with
  | ProbeRaised => no_info
  | ProbeOutput stdout =>
      match Py.split "," (Py.strip stdout) with
      | [] => no_info
      | fps_fraction :: rest =>
          match parse_fps fps_fraction with
          | None => no_info
          | Some fps =>
              match rest with
              | [] => {| frame_count := None; fps := Some fps; duration := None |}
              | field :: _ =>
                  match Py.float_of_str field with
                  | None => no_info
                  | Some duration =>
                      {| frame_count := count_frames duration fps;
                         fps := Some fps;
                         duration := Some duration |}
                  end
              end
          end
      end
  end.

(** ** Progress display *)

Definition filled_cell : string := "█".
Definition empty_cell : string := "░".

(** Lines 152-156. *)
Definition create_progress_bar (progress : Q) (width : Z) : string :=
  let filled_width := Py.int_of_float (inject_Z width * progress / 100)%Q in
  Py.repeat filled_cell filled_width ++ Py.repeat empty_cell (width - filled_width).

(** Lines 332-339; the argument is [video_info["duration"]]. *)
Definition format_duration (seconds : option Q) : string :=
  match seconds with
  | None => "00:00:00"
  | Some x =>
      if Py.float_truthy x then
        let n := Py.int_of_float x in
        Fmt.d_zero 2 (n / 3600) ++ ":" ++ Fmt.d_zero 2 (n mod 3600 / 60)
        ++ ":" ++ Fmt.d_zero 2 (n mod 60)
      else "00:00:00"
  end.

(** Line 266. *)
Definition remaining_frames (total_frames current_frame : Z) : Z :=
  total_frames - current_frame.

(** Line 268. *)
Definition seconds_remaining (total_frames current_frame : Z)
    (video_fps encoding_speed : Q) : Z :=
  Py.int_of_float
    (inject_Z (remaining_frames total_frames current_frame)
     / (video_fps * encoding_speed))%Q.

(** Lines 270-273. *)
Definition format_time_remaining (seconds_remaining : Z) : string :=
  let hours_remaining := seconds_remaining / 3600 in
  let minutes_remaining := seconds_remaining mod 3600 / 60 in
  let seconds_remaining := seconds_remaining mod 60 in
  Fmt.d_zero 2 hours_remaining ++ ":" ++ Fmt.d_zero 2 minutes_remaining
  ++ ":" ++ Fmt.d_zero 2 seconds_remaining.

(** Line 275. *)
Definition progress_percent (current_frame total_frames : Z) : Q :=
  (inject_Z current_frame / inject_Z total_frames * 100)%Q.

(** Lines 279-284; [output_size] is [None] when the output file does not
    exist yet, else its size in bytes. *)
Definition estimated_final_size_mb (output_size : option Z) (percent : Q) : Q :=
  match output_size with
  | Some current_output_size =>
      let estimated_final_size :=
        if Qlt_le_dec 0 percent
        then (inject_Z current_output_size / (percent / 100))%Q
        else 0%Q in
      (estimated_final_size / inject_Z (1024 ^ 2))%Q
  | None => 0%Q
  end.

(** ** The progress loop of [encode_video], one line at a time *)

(** A computation that may raise [ValueError]; the text is the one that could
    not be converted. *)
Inductive raising (A : Type) : Type :=
| Return (a : A)
| Raise (text : string).

Arguments Return {A} a.
Arguments Raise {A} text.

Definition bind {A B : Type} (m : raising A) (k : A -> raising B) : raising B :=
  match m with
  | Return a => k a
  | Raise text => Raise text
  end.

Notation "x <- m ;; k" := (bind m (fun x => k))
  (at level 61, m at next level, right associativity).

(** [int(m.group(1)) if m else 0] *)
Definition int_group (group : option string) : raising Z :=
  match group with
  | None => Return 0
  | Some text =>
      match Py.int_of_str text with
      | Some n => Return n
      | None => Raise text
      end
  end.

(** [float(m.group(1))] when the pattern matched, else the initial [0]. *)
Definition float_group (group : option string) : raising Q :=
  match group with
  | None => Return 0%Q
  | Some text =>
      match Py.float_of_str text with
      | Some x => Return x
      | None => Raise text
      end
  end.

(** The values lines 228-262 extract from a recognised line. *)
Record ProgressSample : Type := {
  frame_match : option string;
  encoding_speed : Q;
  current_fps : Z;
  current_size_kb : Z;
  encoded_time : string;
  current_bitrate : Q
}.

(** Lines 249-257. *)
Definition encoded_time_of (time_match : option (string * string * string)) : string :=
  match time_match with
  | Some (hours, minutes, seconds) =>
      let seconds_int := hd EmptyString (Py.split "." seconds) in
      hours ++ ":" ++ minutes ++ ":" ++ seconds_int
  | None => "00:00:00"
  end.

(** Lines 228-262, in the order the source converts the groups. *)
Definition extract (line : string) : raising ProgressSample :=
  speed <- float_group (Re.speed_re line) ;;
  fps_now <- int_group (Re.fps_re line) ;;
  size_kb <- int_group (Re.size_re line) ;;
  bitrate <- float_group (Re.bitrate_re line) ;;
  Return {| frame_match := Re.frame_re line;
            encoding_speed := speed;
            current_fps := fps_now;
            current_size_kb := size_kb;
            encoded_time := encoded_time_of (Re.time_re line);
            current_bitrate := bitrate |}.

(** The values the status line is formatted from (lines 265-286). *)
Record RenderedStatus : Type := {
  r_current_frame : Z;
  r_total_frames : Z;
  r_progress_bar : string;
  r_progress_percent : Q;
  r_current_fps : Z;
  r_current_size_mb : Q;
  r_estimated_final_size_mb : Q;
  r_encoded_time : string;
  r_video_duration_formatted : string;
  r_time_remaining : string;
  r_current_bitrate : Q;
  r_encoding_speed : Q
}.

Definition CR : string := String (ascii_of_nat 13) EmptyString.
Definition LF : string := String (ascii_of_nat 10) EmptyString.

(** Lines 288-298. *)
Definition enhanced_progress (r : RenderedStatus) : string :=
  CR ++ "Frame: " ++ Fmt.d 6 (r_current_frame r) ++ "/" ++ Fmt.d 6 (r_total_frames r) ++ " | "
  ++ r_progress_bar r ++ " " ++ Fmt.f1w 5 (r_progress_percent r) ++ "% | "
  ++ Fmt.d 3 (r_current_fps r) ++ "fps | "
  ++ Fmt.f1w 5 (r_current_size_mb r) ++ "MB / est. "
  ++ Fmt.f1w 6 (r_estimated_final_size_mb r) ++ "MB | "
  ++ "Encoded: " ++ r_encoded_time r ++ " / " ++ r_video_duration_formatted r ++ " | "
  ++ "est. " ++ r_time_remaining r ++ " remaining | "
  ++ Fmt.f1w 6 (r_current_bitrate r) ++ "kb/s | "
  ++ Fmt.f1w 3 (r_encoding_speed r) ++ "x | "
  ++ "Est. Size: " ++ Fmt.f1w 6 (r_estimated_final_size_mb r) ++ "MB".

(** What one iteration of the loop does with the line it read. *)
Inductive Action : Type :=
| Ignore                                 (* empty after stripping: nothing *)
| PassThrough (line : string)            (* line 306: print(line) *)
| PassThroughInPlace (line : string)     (* line 303: print(f"\r{line}", end='') *)
| RenderStatus (status : RenderedStatus) (* line 300 *)
| Failed (text : string).                (* ValueError leaves the loop *)

(** The text an iteration writes to standard output. *)
Definition stdout_of (a : Action) : string :=
  match a with
  | Ignore => EmptyString
  | PassThrough line => line ++ LF
  | PassThroughInPlace line => CR ++ line
  | RenderStatus status => enhanced_progress status
  | Failed _ => EmptyString
  end.

(** What the loop reads besides the line: the probe's result (fixed before
    the loop) and the output file as it is when the line is handled. *)
Record TrackerState : Type := {
  video_info : MediaInfo;
  output_size : option Z
}.

(** [total_frames] when it is true in the condition of line 264. *)
Definition known_total_frames (info : MediaInfo) : option Z :=
  match frame_count info with
  | Some n => if n =? 0 then None else Some n
  | None => None
  end.

(** [video_fps] when it is true in the condition of line 264. *)
Definition known_video_fps (info : MediaInfo) : option Q :=
  match fps info with
  | Some x => if Py.float_truthy x then Some x else None
  | None => None
  end.

(** Lines 265-286. *)
Definition status_of (st : TrackerState) (s : ProgressSample)
    (current_frame total_frames : Z) (video_fps : Q) : RenderedStatus :=
  let percent := progress_percent current_frame total_frames in
  {| r_current_frame := current_frame;
     r_total_frames := total_frames;
     r_progress_bar := create_progress_bar percent 20;
     r_progress_percent := percent;
     r_current_fps := current_fps s;
     r_current_size_mb := (inject_Z (current_size_kb s) / 1024)%Q;
     r_estimated_final_size_mb := estimated_final_size_mb (output_size st) percent;
     r_encoded_time := encoded_time s;
     r_video_duration_formatted := format_duration (duration (video_info st));
     r_time_remaining :=
       format_time_remaining
         (seconds_remaining total_frames current_frame video_fps (encoding_speed s));
     r_current_bitrate := current_bitrate s;
     r_encoding_speed := encoding_speed s |}.

(** Lines 264-303. *)
Definition present (st : TrackerState) (line : string) (s : ProgressSample) : Action :=
  match frame_match s, known_total_frames (video_info st),
        known_video_fps (video_info st), Qlt_le_dec 0 (encoding_speed s) with
  | Some group, Some total_frames, Some video_fps, left _ =>
      match Py.int_of_str group with
      | Some current_frame =>
          RenderStatus (status_of st s current_frame total_frames video_fps)
      | None => Failed group
      end
  | _, _, _, _ => PassThroughInPlace line
  end.

(** Lines 222-306: the body of the loop for the line [raw] as read. *)
Definition observe (st : TrackerState) (raw : string) : Action :=
  let line := Py.strip raw in
  match line with
  | EmptyString => Ignore
  | _ =>
      if Py.startswith "frame=" line then
        match extract line with
        | Return s => present st line s
        | Raise text => Failed text
        end
      else PassThrough line
  end.

(** ** Exit handling and the log *)

(** Lines 322-330, on the two sizes [os.path.getsize] returns.  [None] stands
    for the [ZeroDivisionError] of line 326. *)
Definition calculate_size_reduction (original_size encoded_size : Z) : option string :=
  if original_size =? 0 then None
  else
    let reduction :=
      (inject_Z (original_size - encoded_size) / inject_Z original_size * 100)%Q in
    Some ("Original: " ++ Fmt.f1 (inject_Z original_size / inject_Z (1024 ^ 2))%Q ++ "MB" ++ LF
          ++ "Encoded: " ++ Fmt.f1 (inject_Z encoded_size / inject_Z (1024 ^ 2))%Q ++ "MB" ++ LF
          ++ "Reduction: " ++ Fmt.f1 reduction ++ "%").

(** The encoder process: [Popen] raises, or the process writes its lines and
    exits.  Each line comes with the output file as it is when the line is
    handled ([None]: it does not exist, else its size in bytes). *)
Inductive process_run : Type :=
| LaunchRaised
| Exited (stream : list (string * option Z)) (return_code : Z).

(** One call of [encode_video], seen from the outside. *)
Record EncoderRun : Type := {
  input_size : option Z;         (* None: the input is not a file *)
  probe : probe_run;
  process : process_run;
  final_output_size : option Z   (* the output file after the exit *)
}.

(** The last message [encode_video] prints. *)
Inductive Report : Type :=
| InputNotFound                  (* line 164 *)
| ExitedWithError (code : Z)     (* line 311 *)
| EncodingFailed                 (* line 319 *)
| EncodingCompleted.             (* line 315 *)

Record EncodeResult : Type := {
  shown : list Action;           (* what the loop did, line by line *)
  report : Report;
  log : option string            (* the second component of the pair returned *)
}.

(** Lines 217-306: the loop over the lines read, up to the first exception;
    the flag tells whether the end of the stream was reached. *)
Fixpoint progress_loop (info : MediaInfo) (stream : list (string * option Z))
  : list Action * bool :=
  match stream with
  | [] => ([], true)
  | (raw, size) :: rest =>
      let a := observe {| video_info := info; output_size := size |} raw in
      match a with
      | Failed _ => ([a], false)
      | _ => let '(acts, ok) := progress_loop info rest in (a :: acts, ok)
      end
  end.

(** Lines 308-316, with the handler of line 318 for the exception of
    [calculate_size_reduction]. *)
Definition on_exit (return_code original_size : Z) (final_output_size : option Z)
  : Report * option string :=
  if negb (return_code =? 0) then (ExitedWithError return_code, None)
  else
    match final_output_size with
    | None => (EncodingCompleted, None)
    | Some encoded_size =>
        match calculate_size_reduction original_size encoded_size with
        | Some text => (EncodingCompleted, Some text)
        | None => (EncodingFailed, None)
        end
    end.

(** Lines 158-320. *)
Definition encode_video (run : EncoderRun) : EncodeResult :=
  match input_size run with
  | None => {| shown := []; report := InputNotFound; log := None |}
  | Some original_size =>
      let info := get_video_info (probe run) in
      match process run with
      | LaunchRaised => {| shown := []; report := EncodingFailed; log := None |}
      | Exited stream return_code =>
          match progress_loop info stream with
          | (acts, false) => {| shown := acts; report := EncodingFailed; log := None |}
          | (acts, true) =>
              let '(rep, text) :=
                on_exit return_code original_size (final_output_size run) in
              {| shown := acts; report := rep; log := text |}
          end
      end
  end.

(** Lines 353-360: the text written to the log file, [None] when no log file
    is written. *)
Definition encode_and_log (run : EncoderRun) : option string :=
  match log (encode_video run) with
  | Some text => if String.eqb text EmptyString then None else Some text
  | None => None
  end.

(** ** Auxiliary notions used in the statements *)

(** A natural number written with at least two decimal digits: one leading
    zero below ten, the plain numeral from ten on. *)
Definition two_digits (n : Z) : string :=
  if n <? 10 then "0" ++ Py.str_int n else Py.str_int n.

(** Every character of [s] satisfies [f]. *)
Fixpoint all_chars (f : ascii -> bool) (s : string) : bool :=
  match s with
  | EmptyString => true
  | String c r => f c && all_chars f r
  end.


(** Case analysis on the eight bits of a character. *)
Ltac ascii_cases c := destruct c as [[] [] [] [] [] [] [] []].

(** ** Concrete inputs used by the examples *)

(** A four-second clip at 25 frames per second, as [get_video_info] reports
    it for the ffprobe output [25/1,4.000000]. *)
Definition clip_info : MediaInfo :=
  {| frame_count := Some 100; fps := Some (25 # 1); duration := Some (4 # 1) |}.

(** The loop's context while the output file holds one mebibyte. *)
Definition clip_state : TrackerState :=
  {| video_info := clip_info; output_size := Some 1048576 |}.

(** An indented line of the encoder's banner. *)
Definition banner_line : string := "  Stream #0:0: Video: h264".


(** A progress line as the encoder prints it half way through the clip. *)
Definition usual_line : string :=
  "frame=   50 fps= 25 q=28.0 size=     512KiB time=00:00:02.00 bitrate=2097.2kbits/s speed=1.02x".

(** A progress line with only the frame number and the speed. *)
Definition bare_line : string := "frame=   50 speed=2.00x".



(** Outputs of the inspection tool: the frame rate alone, a zero duration,
    a zero denominator. *)
Definition fps_only_output : string := "30/1" ++ LF.
Definition zero_denominator_output : string := "0/0,5.000000" ++ LF.
Definition usual_output : string := "30000/1001,10.500000" ++ LF.

(** Two runs on a 1000 MB original: one exits with code 0 and leaves an
    output of 400 MB, the other exits with code 1. *)
Definition good_run : EncoderRun :=
  {| input_size := Some (1000 * 1024 ^ 2);
     probe := ProbeOutput usual_output;
     process := Exited [(banner_line, None); (bare_line, Some 1048576)] 0;
     final_output_size := Some (400 * 1024 ^ 2) |}.




(** * The rest of the script: prompts, setup, command line, file names

    The sections below embed the functions the progress display does not
    touch: [get_validated_integer_input] (lines 13-39), [find_ffmpeg_path]
    (41-88), [check_gpu_acceleration] (90-101), the command line of
    [encode_video] (160-200), the file handling of [encode_and_log]
    (353-379) and the dialogue of the main block (389-449).

    What the user types is a list of lines, one per call of [input]; a call
    on the empty list is the [EOFError] of a closed input, which the script
    does not catch.  Paths follow [posixpath] and [PurePosixPath], the
    flavour the script runs with on Linux and macOS. *)

(** ** More of Python's text and path primitives *)

Module PyText.

(** [str.upper] on ASCII text. *)
Definition upper_char (c : ascii) : ascii :=
  let n := nat_of_ascii c in
  if Nat.leb 97 n && Nat.leb n 122 then ascii_of_nat (n - 32) else c.

Fixpoint upper (s : string) : string :=
  match s with
  | EmptyString => EmptyString
  | String c r => String (upper_char c) (upper r)
  end.

(** [needle in hay] *)
Fixpoint occurs (needle hay : string) : bool :=
  String.prefix needle hay
  || match hay with
     | EmptyString => false
     | String _ r => occurs needle r
     end.

(** [str(x)] for an optional integer: [None] prints as its name. *)
Definition str_optional (x : option Z) : string :=
  match x with
  | Some n => Py.str_int n
  | None => "None"
  end.

End PyText.

Module PosixPath.

(** [s.endswith("/")] *)
Fixpoint ends_with_sep (s : string) : bool :=
  match s with
  | EmptyString => false
  | String c EmptyString => Ascii.eqb c "/"
  | String _ r => ends_with_sep r
  end.

(** [os.path.join(a, b)] *)
Definition join (a b : string) : string :=
  if Py.startswith "/" b then b
  else match a with
       | EmptyString => b
       | _ => if ends_with_sep a then a ++ b else a ++ "/" ++ b
       end.

(** [PurePosixPath(p).name]: the last component that is neither empty nor
    a single dot, the empty string when there is none. *)
Definition name (p : string) : string :=
  last (filter (fun x => negb (String.eqb x EmptyString || String.eqb x "."))
               (Py.split "/" p))
       EmptyString.

(** [s.rpartition(c)] as the text before and after the last [c], when [c]
    occurs. *)
Fixpoint rpartition (c : ascii) (s : string) : option (string * string) :=
  match s with
  | EmptyString => None
  | String d r =>
      match rpartition c r with
      | Some (before, after) => Some (String d before, after)
      | None => if Ascii.eqb d c then Some (EmptyString, r) else None
      end
  end.

(** The [stem] of a final component: [name[:i]] for the last dot [i] when
    [0 < i < len(name) - 1]. *)
Definition stem_of_name (n : string) : string :=
  match rpartition "." n with
  | Some (String c before, String d after) => String c before
  | _ => n
  end.

(** [PurePosixPath(p).stem] *)
Definition stem (p : string) : string := stem_of_name (name p).

(** [os.path.splitext(p)]: the extension starts at the last dot of the last
    component, unless only dots precede it there. *)
Definition splitext (p : string) : string * string :=
  let '(dir, tail) :=
    match rpartition "/" p with
    | Some (before, after) => (before ++ "/", after)
    | None => (EmptyString, p)
    end in
  match rpartition "." tail with
  | Some (before, after) =>
      if all_chars (Ascii.eqb ".") before then (p, EmptyString)
      else (dir ++ before, "." ++ after)
  | None => (p, EmptyString)
  end.

End PosixPath.

(** ** [get_validated_integer_input] *)

(** Lines 17-24: the prompt shown at each attempt. *)
Definition display_prompt (prompt : string) (default_value min_value max_value : option Z)
  : string :=
  prompt
  ++ match default_value with
     | Some d => " (default: " ++ Py.str_int d ++ ")"
     | None => EmptyString
     end
  ++ match min_value with
     | Some m => " [min: " ++ Py.str_int m ++ "]"
     | None => EmptyString
     end
  ++ match max_value with
     | Some m => " [max: " ++ Py.str_int m ++ "]"
     | None => EmptyString
     end
  ++ ": ".

(** What an attempt prints when it does not return. *)
Inductive Feedback : Type :=
| MustBeAtLeast (min_value : Z)    (* line 32 *)
| MustBeAtMost (max_value : Z)     (* line 35 *)
| NotAnInteger.                    (* line 39 *)

(** Lines 26-39: one attempt, on the line the user typed. *)
Definition attempt (default_value min_value max_value : option Z) (typed : string)
  : Feedback + Z :=
  let user_input :=
    match typed with
    | EmptyString => PyText.str_optional default_value
    | _ => typed
    end in
  match Py.int_of_str user_input with
  | None => inl NotAnInteger
  | Some validated_input =>
      match min_value with
      | Some m =>
          if validated_input <? m then inl (MustBeAtLeast m)
          else match max_value with
               | Some M =>
                   if M <? validated_input then inl (MustBeAtMost M)
                   else inr validated_input
               | None => inr validated_input
               end
      | None =>
          match max_value with
          | Some M =>
              if M <? validated_input then inl (MustBeAtMost M)
              else inr validated_input
          | None => inr validated_input
          end
      end
  end.

(** Lines 13-39: the loop over the lines typed.  The result is the feedback
    printed, and the value returned with the lines left unread, or [None]
    when the input ends before an attempt succeeds. *)
Fixpoint get_validated_integer_input (default_value min_value max_value : option Z)
    (typed : list string) : list Feedback * option (Z * list string) :=
  match typed with
  | [] => ([], None)
  | line :: rest =>
      match attempt default_value min_value max_value line with
      | inr validated_input => ([], Some (validated_input, rest))
      | inl feedback =>
          let '(printed, result) :=
            get_validated_integer_input default_value min_value max_value rest in
          (feedback :: printed, result)
      end
  end.

(** ** The dialogue of the main block *)

(** Lines 389-405: the file names collected, with the lines left unread;
    [None] when the input ends before the empty line.  [isfile] is
    [os.path.isfile] in the current directory. *)
Fixpoint collect_videos (isfile : string -> bool) (typed : list string)
  : option (list string * list string) :=
  match typed with
  | [] => None
  | line :: rest =>
      let video := Py.strip line in
      match video with
      | EmptyString => Some ([], rest)
      | _ =>
          match collect_videos isfile rest with
          | Some (videos, unread) =>
              Some (if isfile video then video :: videos else videos, unread)
          | None => None
          end
      end
  end.

(** The settings lines 415-441 fix before the encoding starts. *)
Record EncodingSettings : Type := {
  codec : string;
  keyframe : Z;
  crf : Z;
  preset : string;            (* as [str(preset)] passes it to the encoder *)
  max_bitrate : option Z
}.

Inductive Configured : Type :=
| Settings (settings : EncodingSettings) (unread : list string)
| InvalidChoice               (* line 441: sys.exit *)
| InputEnded.                 (* EOFError *)

(** Lines 413-441. *)
Definition choose_settings (typed : list string) : Configured :=
  match typed with
  | [] => InputEnded
  | answer :: rest =>
      let encoding :=
        match PyText.upper answer with
        | EmptyString => "AV1"
        | text => text
        end in
      if String.eqb encoding "HEVC" then
        match snd (get_validated_integer_input (Some 30) (Some 0) (Some 51) rest) with
        | Some (quality, rest1) =>
            match rest1 with
            | [] => InputEnded
            | typed_preset :: rest2 =>
                Settings {| codec := "libx265";
                            keyframe := 1;
                            crf := quality;
                            preset := match typed_preset with
                                      | EmptyString => "slow"
                                      | _ => typed_preset
                                      end;
                            max_bitrate := None |} rest2
            end
        | None => InputEnded
        end
      else if String.eqb encoding "AV1" then
        match snd (get_validated_integer_input (Some 50) (Some 0) (Some 63) rest) with
        | Some (quality, rest1) =>
            match snd (get_validated_integer_input (Some 6) (Some 0) (Some 13) rest1) with
            | Some (level, rest2) =>
                Settings {| codec := "libsvtav1";
                            keyframe := 150;
                            crf := quality;
                            preset := Py.str_int level;
                            max_bitrate := Some 1500 |} rest2
            | None => InputEnded
            end
        | None => InputEnded
        end
      else InvalidChoice
  end.

(** Line 449: the answer that moves the originals to the recycle bin. *)
Definition wants_recycle (answer : string) : bool :=
  String.eqb (PyText.upper answer) "Y".

(** ** Setup: [find_ffmpeg_path] and [check_gpu_acceleration] *)

(** A call of [subprocess.check_output]: it cannot start the program
    ([OSError], not caught by the script), the program exits with a code
    that is not zero ([CalledProcessError]), or it returns the output. *)
Inductive tool_run : Type :=
| CannotStart
| ExitedNonZero
| Printed (stdout : string).

(** Lines 61-80; [windows_paths] are the two paths built from the
    environment on Windows. *)
Definition common_paths (system : string) (windows_paths : list string) : list string :=
  if String.eqb system "Windows" then windows_paths
  else if String.eqb system "Darwin" then
    ["/usr/local/bin/ffmpeg"; "/opt/homebrew/bin/ffmpeg"; "/opt/local/bin/ffmpeg"]
  else
    ["/usr/bin/ffmpeg"; "/usr/local/bin/ffmpeg"; "/opt/ffmpeg/bin/ffmpeg"].

Inductive Located : Type :=
| FoundAt (path : string)
| NotFound        (* line 88: sys.exit(1) *)
| LookupCrashed.  (* the exception of [where] / [which] that is not caught *)

(** Lines 82-88. *)
Fixpoint first_file (isfile : string -> bool) (paths : list string) : Located :=
  match paths with
  | [] => NotFound
  | path :: rest => if isfile path then FoundAt path else first_file isfile rest
  end.

(** Lines 41-88; [lookup] is the run of [where ffmpeg] or [which ffmpeg]. *)
Definition find_ffmpeg_path (system : string) (windows_paths : list string)
    (lookup : tool_run) (isfile : string -> bool) : Located :=
  match lookup with
  | CannotStart => LookupCrashed
  | ExitedNonZero => first_file isfile (common_paths system windows_paths)
  | Printed stdout =>
      match Py.strip stdout with
      | EmptyString => first_file isfile (common_paths system windows_paths)
      | ffmpeg_path => FoundAt ffmpeg_path
      end
  end.

(** Lines 90-101; [None] when the run of [ffmpeg -codecs] cannot start. *)
Definition check_gpu_acceleration (codecs : tool_run) : option bool :=
  match codecs with
  | CannotStart => None
  | ExitedNonZero => Some false
  | Printed output => Some (PyText.occurs "hwaccel" output)
  end.

(** ** The command line and the file names of [encode_video] *)

(** Line 161. *)
Definition output_file_of (output_path video_name : string) : string :=
  PosixPath.join output_path (PosixPath.stem video_name ++ " encoded av1.mkv").

(** Line 358. *)
Definition log_file_path (output_path output_file : string) : string :=
  PosixPath.join output_path (PosixPath.stem output_file ++ ".log").

(** Line 196, on the number [os.cpu_count()] returns. *)
Definition cores (cpu_count : Z) : Z :=
  Z.max 4 (Z.min 8 (Qfloor (inject_Z cpu_count / 2))).

(** Line 197. *)
Definition svtav1_params (cpu_count : Z) (max_bitrate : option Z) : string :=
  "lp=" ++ Py.str_int (cores cpu_count) ++ ":mbr=" ++ PyText.str_optional max_bitrate
  ++ ":enable-stat-report=1:tune=1:enable-overlays=1:enable-tf=1:scd=1".

(** Lines 179-200: the argument list handed to [Popen].  [cpu_count] is
    [None] when [os.cpu_count()] is; the division of line 196 then raises
    [TypeError], which is the [None] result here. *)
Definition ffmpeg_cmd (ffmpeg_path input_file output_file encoding_command : string)
    (crf : Z) (preset : string) (keyframe_interval : Z) (gpu_acceleration : bool)
    (max_bitrate : option Z) (cpu_count : option Z) : option (list string) :=
  let base :=
    [ffmpeg_path; "-y"; "-i"; input_file; "-map"; "0";
     "-vf"; "scale=1920:-1";
     "-c:v"; encoding_command;
     "-crf"; Py.str_int crf;
     "-preset"; preset;
     "-g"; Py.str_int keyframe_interval;
     "-pix_fmt"; "yuv420p10le";
     "-c:a"; "copy"] in
  let with_gpu :=
    if gpu_acceleration then (base ++ ["-hwaccel"; "auto"])%list else base in
  if String.eqb encoding_command "libsvtav1" then
    match cpu_count with
    | Some n =>
        Some ((with_gpu ++ ["-svtav1-params"; svtav1_params n max_bitrate])
              ++ [output_file])%list
    | None => None
    end
  else Some (with_gpu ++ [output_file])%list.

(** ** The recycle bin of [encode_and_log] *)

(** Lines 369-374: where the original is moved; [exists_] is
    [os.path.exists]. *)
Definition recycle_destination (recycle_bin_dir video_name : string)
    (exists_ : string -> bool) : string :=
  let destination_file := PosixPath.join recycle_bin_dir video_name in
  if exists_ destination_file then
    let '(base, ext) := PosixPath.splitext video_name in
    PosixPath.join recycle_bin_dir (base ++ "_old" ++ ext)
  else destination_file.

(** ** Auxiliary notions used in the statements *)

(** The characters of a numeral: digits, after a minus sign at most. *)
Definition numeral_char (c : ascii) : bool := Py.isdigit c || Ascii.eqb c "-".

(** A character that does not end or restart a terminal line: neither a
    line feed nor a carriage return. *)
Definition line_char (c : ascii) : bool :=
  negb (Nat.eqb (nat_of_ascii c) 10 || Nat.eqb (nat_of_ascii c) 13).

(** ** Concrete inputs used by the examples *)


(** The recycle folder of a Linux user. *)
Definition trash_dir : string := "/home/user/.local/share/Trash/files".

(** What the loop body does with a line of the stream, which comes with the
    output file as it is at that moment. *)
Definition iteration (info : MediaInfo) (entry : string * option Z) : Action :=
  observe {| video_info := info; output_size := snd entry |} (fst entry).

(** An action that is not the exception leaving the loop. *)
Definition completes (a : Action) : Prop := forall text, a <> Failed text.

(** The values [extract] returns for [bare_line], and the status rendered
    from them in [good_run], whose probe counts 314 frames. *)
Definition bare_sample : ProgressSample :=
  {| frame_match := Some "50";
     encoding_speed := 200 # 100;
     current_fps := 0;
     current_size_kb := 0;
     encoded_time := "00:00:00";
     current_bitrate := 0 |}.


(** The values [extract] returns for [usual_line], and the status rendered
    from them on the four-second clip. *)
Definition usual_sample : ProgressSample :=
  {| frame_match := Some "50";
     encoding_speed := 102 # 100;
     current_fps := 25;
     current_size_kb := 512;
     encoded_time := "00:00:02";
     current_bitrate := 20972 # 10 |}.

Definition usual_status : RenderedStatus :=
  status_of clip_state usual_sample 50 100 (25 # 1).

(** * The binary64 reading

    The definitions above compute on exact rationals, which is enough for
    the order properties of the display.  The values the script shows and
    the exceptions its arithmetic raises depend on Python's [float] being
    an IEEE 754 binary64 number.  The module [B64] gives that arithmetic,
    built on the Standard Library's specification of IEEE 754
    ([SpecFloat], with a precision of 53 bits and the exponent bound 1024),
    and the module [F64] embeds the prober, the progress loop and the log
    a second time on it, statement for statement, with the exceptions of
    the float operations at the places where the source raises them.

    What remains idealised in [F64]: text is ASCII, [int] has no limit on
    the number of digits, and a string can be of any length (no
    [MemoryError]). *)

Module B64.

Definition prec : Z := 53.
Definition emax : Z := 1024.

(** A Python [float]. *)
Definition float : Type := spec_float.

(** The exceptions the arithmetic and the conversions raise. *)
Inductive exception : Type :=
| ValueError
| OverflowError
| ZeroDivisionError.

(** A computation that returns or raises. *)
Inductive outcome (A : Type) : Type :=
| Returned (a : A)
| Raised (e : exception).

Arguments Returned {A} a.
Arguments Raised {A} e.

Definition bind {A B : Type} (m : outcome A) (k : A -> outcome B) : outcome B :=
  match m with
  | Returned a => k a
  | Raised e => Raised e
  end.

Definition map {A B : Type} (f : A -> B) (m : outcome A) : outcome B :=
  match m with
  | Returned a => Returned (f a)
  | Raised e => Raised e
  end.

(** The rational a finite float denotes; zero for the others. *)
Definition value (x : float) : Q :=
  match x with
  | S754_finite s m e =>
      let n := if s then Zneg m else Zpos m in
      if 0 <=? e then inject_Z (n * 2 ^ e) else n # (2 ^ Z.to_pos (- e))
  | _ => 0
  end.

(** The float nearest to [n / d], ties to the even mantissa, with the given
    sign: a zero when the quotient is too small, an infinity when it is too
    large. *)
Definition round_ratio (negative : bool) (n d : positive) : float :=
  let '(q, e, l) := SFdiv_core_binary prec emax (Zpos n) 0 (Zpos d) 0 in
  binary_round_aux prec emax negative q e l.

(** The float nearest to a rational that is not negative. *)
Definition of_Q (negative : bool) (q : Q) : float :=
  match Qnum q with
  | Zpos n => round_ratio negative n (Qden q)
  | _ => S754_zero negative
  end.

(** An [int] constant of the source used as a float; exact below [2 ^ 53]. *)
Definition const (n : Z) : float := binary_normalize prec emax n 0 false.

(** The conversion of an [int] operand of a float operation: nearest float,
    [OverflowError] beyond the largest one. *)
Definition of_int (n : Z) : outcome float :=
  match binary_normalize prec emax n 0 false with
  | S754_infinity _ => Raised OverflowError
  | x => Returned x
  end.

(** [a / b] on two [int]s: the correctly rounded quotient. *)
Definition true_div (a b : Z) : outcome float :=
  match b with
  | Z0 => Raised ZeroDivisionError
  | _ =>
      let negative := xorb (a <? 0) (b <? 0) in
      match a with
      | Z0 => Returned (S754_zero negative)
      | _ =>
          match round_ratio negative (Z.to_pos (Z.abs a)) (Z.to_pos (Z.abs b)) with
          | S754_infinity _ => Raised OverflowError
          | x => Returned x
          end
      end
  end.

(** [x * y] on floats: never raises. *)
Definition mul (x y : float) : float := SFmul prec emax x y.

Definition is_zero (x : float) : bool :=
  match x with
  | S754_zero _ => true
  | _ => false
  end.

(** [x / y] on floats with a divisor that is not zero. *)
Definition quotient (x y : float) : float := SFdiv prec emax x y.

(** [x / y] on floats. *)
Definition div (x y : float) : outcome float :=
  if is_zero y then Raised ZeroDivisionError else Returned (quotient x y).

(** [int(x)]: truncation toward zero; [OverflowError] on an infinity,
    [ValueError] on a NaN. *)
Definition to_int (x : float) : outcome Z :=
  match x with
  | S754_nan => Raised ValueError
  | S754_infinity _ => Raised OverflowError
  | _ => Returned (Z.quot (Qnum (value x)) (Zpos (Qden (value x))))
  end.

(** Truth value: every float but the two zeros. *)
Definition truthy (x : float) : bool := negb (is_zero x).

(** [x > 0] *)
Definition positive (x : float) : bool := SFltb (S754_zero false) x.

(** [float(s)]: blanks around, a sign, then [inf], [infinity] or [nan] in
    any case, or a decimal literal, which is rounded to the nearest float.
    [None] stands for [ValueError]. *)
Definition float_of_str (s : string) : option float :=
  let '(negative, body) :=
    match Py.skip_blanks s with
    | String "-" r => (true, r)
    | String "+" r => (false, r)
    | r => (false, r)
    end in
  let name := PyText.upper body in
  if String.eqb name "INF" || String.eqb name "INFINITY" then Some (S754_infinity negative)
  else if String.eqb name "NAN" then Some S754_nan
  else option_map (of_Q negative) (Py.unsigned_float body).

(** [{x:.1f}]: the float's exact value rounded to one decimal, ties to
    even. *)
Definition f1 (x : float) : string :=
  match x with
  | S754_nan => "nan"
  | S754_infinity s => (if s then "-" else "") ++ "inf"
  | S754_zero s => (if s then "-" else "") ++ "0.0"
  | S754_finite s _ _ => (if s then "-" else "") ++ Fmt.f1 (Qabs (value x))
  end.

(** [{x:W.1f}] *)
Definition f1w (width : nat) (x : float) : string := Py.rjust width (f1 x).

(** A float that is not below zero: a zero, a NaN, or one without the sign
    bit. *)
Definition not_negative (x : float) : bool :=
  match x with
  | S754_zero _ | S754_nan => true
  | S754_infinity s | S754_finite s _ _ => negb s
  end.

End B64.

Module F64.

Import B64.

Declare Scope outcome_scope.
Notation "x <- m ;; k" := (B64.bind m (fun x => k))
  (at level 61, m at next level, right associativity) : outcome_scope.
Local Open Scope outcome_scope.

(** ** The prober *)

Record MediaInfo : Type := {
  frame_count : option Z;
  fps : option float;
  duration : option float
}.

Definition no_info : MediaInfo :=
  {| frame_count := None; fps := None; duration := None |}.

(** Lines 126-131. *)
Definition parse_fps (fps_fraction : string) : outcome float :=
  if Py.contains "/" fps_fraction then
    match List.map Py.int_of_str (Py.split "/" fps_fraction) with
    | [Some num; Some den] => true_div num den
    | _ => Raised ValueError
    end
  else
    match float_of_str fps_fraction with
    | Some x => Returned x
    | None => Raised ValueError
    end.

(** Line 134. *)
Definition parse_duration (rest : list string) : outcome (option float) :=
  match rest with
  | [] => Returned None
  | field :: _ =>
      match float_of_str field with
      | Some x => Returned (Some x)
      | None => Raised ValueError
      end
  end.

(** Line 137: [int(duration * fps) if duration and fps else None]. *)
Definition count_frames (duration : option float) (fps : float) : outcome (option Z) :=
  match duration with
  | Some d =>
      if truthy d && truthy fps
      then n <- to_int (mul d fps) ;; Returned (Some n)
      else Returned None
  | None => Returned None
  end.

(** Lines 125-143. *)
Definition probe_fields (fps_fraction : string) (rest : list string) : outcome MediaInfo :=
  fps <- parse_fps fps_fraction ;;
  duration <- parse_duration rest ;;
  frame_count <- count_frames duration fps ;;
  Returned {| frame_count := frame_count; fps := Some fps; duration := duration |}.

(** Lines 105-150. *)
Definition get_video_info (probe : probe_run) : MediaInfo :=
  match probe with
  | ProbeRaised => no_info
  | ProbeOutput stdout =>
      match Py.split "," (Py.strip stdout) with
      | [] => no_info
      | fps_fraction :: rest =>
          match probe_fields fps_fraction rest with
          | Returned info => info
          | Raised _ => no_info
          end
      end
  end.

(** ** The display *)

(** Lines 152-156. *)
Definition create_progress_bar (progress : float) (width : Z) : outcome string :=
  w <- of_int width ;;
  filled_width <- to_int (quotient (mul w progress) (const 100)) ;;
  Returned (Py.repeat filled_cell filled_width
            ++ Py.repeat empty_cell (width - filled_width)).

(** Lines 332-339. *)
Definition format_duration (seconds : option float) : outcome string :=
  match seconds with
  | None => Returned "00:00:00"
  | Some x =>
      if truthy x then n <- to_int x ;; Returned (format_time_remaining n)
      else Returned "00:00:00"
  end.

(** Line 266. *)
Definition remaining_frames (total_frames current_frame : Z) : Z :=
  total_frames - current_frame.

(** Line 268. *)
Definition seconds_remaining (remaining_frames : Z) (video_fps encoding_speed : float)
  : outcome Z :=
  x <- of_int remaining_frames ;;
  q <- div x (mul video_fps encoding_speed) ;;
  to_int q.

(** Line 275. *)
Definition progress_percent (current_frame total_frames : Z) : outcome float :=
  q <- true_div current_frame total_frames ;;
  Returned (mul q (const 100)).

(** Lines 279-284. *)
Definition estimated_final_size_mb (output_size : option Z) (percent : float)
  : outcome float :=
  match output_size with
  | Some current_output_size =>
      estimated_final_size <-
        (if positive percent then
           x <- of_int current_output_size ;;
           div x (quotient percent (const 100))
         else Returned (S754_zero false)) ;;
      Returned (quotient estimated_final_size (const (1024 ^ 2)))
  | None => Returned (S754_zero false)
  end.

(** ** The progress loop, one line at a time *)

Definition int_group (group : option string) : outcome Z :=
  match group with
  | None => Returned 0
  | Some text =>
      match Py.int_of_str text with
      | Some n => Returned n
      | None => Raised ValueError
      end
  end.

Definition float_group (group : option string) : outcome float :=
  match group with
  | None => Returned (S754_zero false)
  | Some text =>
      match float_of_str text with
      | Some x => Returned x
      | None => Raised ValueError
      end
  end.

(** The values lines 228-262 extract from a recognised line. *)
Record ProgressSample : Type := {
  frame_match : option string;
  encoding_speed : float;
  current_fps : Z;
  current_size_kb : Z;
  current_size_mb : float;
  encoded_time : string;
  current_bitrate : float
}.

(** Lines 228-262, in the order the source converts the groups. *)
Definition extract (line : string) : outcome ProgressSample :=
  speed <- float_group (Re.speed_re line) ;;
  fps_now <- int_group (Re.fps_re line) ;;
  size_kb <- int_group (Re.size_re line) ;;
  size_mb <- true_div size_kb 1024 ;;
  bitrate <- float_group (Re.bitrate_re line) ;;
  Returned {| frame_match := Re.frame_re line;
              encoding_speed := speed;
              current_fps := fps_now;
              current_size_kb := size_kb;
              current_size_mb := size_mb;
              encoded_time := encoded_time_of (Re.time_re line);
              current_bitrate := bitrate |}.

(** The values the status line is formatted from (lines 265-286). *)
Record RenderedStatus : Type := {
  r_current_frame : Z;
  r_total_frames : Z;
  r_progress_bar : string;
  r_progress_percent : float;
  r_current_fps : Z;
  r_current_size_mb : float;
  r_estimated_final_size_mb : float;
  r_encoded_time : string;
  r_video_duration_formatted : string;
  r_time_remaining : string;
  r_current_bitrate : float;
  r_encoding_speed : float
}.

(** Lines 288-298. *)
Definition enhanced_progress (r : RenderedStatus) : string :=
  CR ++ "Frame: " ++ Fmt.d 6 (r_current_frame r) ++ "/" ++ Fmt.d 6 (r_total_frames r) ++ " | "
  ++ r_progress_bar r ++ " " ++ f1w 5 (r_progress_percent r) ++ "% | "
  ++ Fmt.d 3 (r_current_fps r) ++ "fps | "
  ++ f1w 5 (r_current_size_mb r) ++ "MB / est. "
  ++ f1w 6 (r_estimated_final_size_mb r) ++ "MB | "
  ++ "Encoded: " ++ r_encoded_time r ++ " / " ++ r_video_duration_formatted r ++ " | "
  ++ "est. " ++ r_time_remaining r ++ " remaining | "
  ++ f1w 6 (r_current_bitrate r) ++ "kb/s | "
  ++ f1w 3 (r_encoding_speed r) ++ "x | "
  ++ "Est. Size: " ++ f1w 6 (r_estimated_final_size_mb r) ++ "MB".

(** What one iteration of the loop does with the line it read. *)
Inductive Action : Type :=
| Ignore
| PassThrough (line : string)            (* line 306 *)
| PassThroughInPlace (line : string)     (* line 303 *)
| RenderStatus (status : RenderedStatus) (* line 300 *)
| Failed (e : exception).                (* the exception leaves the loop *)

(** The text an iteration writes to standard output. *)
Definition stdout_of (a : Action) : string :=
  match a with
  | Ignore => EmptyString
  | PassThrough line => line ++ LF
  | PassThroughInPlace line => CR ++ line
  | RenderStatus status => enhanced_progress status
  | Failed _ => EmptyString
  end.

(** What the loop writes to standard output, from its first line on. *)
Definition transcript (acts : list Action) : string :=
  String.concat EmptyString (List.map stdout_of acts).

Record TrackerState : Type := {
  video_info : MediaInfo;
  output_size : option Z
}.

(** [total_frames] when it is true in the condition of line 264. *)
Definition known_total_frames (info : MediaInfo) : option Z :=
  match frame_count info with
  | Some n => if n =? 0 then None else Some n
  | None => None
  end.

(** [video_fps] when it is true in the condition of line 264. *)
Definition known_video_fps (info : MediaInfo) : option float :=
  match fps info with
  | Some x => if truthy x then Some x else None
  | None => None
  end.

(** Lines 266-286, in the order the source evaluates them. *)
Definition status_of (st : TrackerState) (s : ProgressSample)
    (current_frame total_frames : Z) (video_fps : float) : outcome RenderedStatus :=
  secs <- seconds_remaining (remaining_frames total_frames current_frame)
            video_fps (encoding_speed s) ;;
  percent <- progress_percent current_frame total_frames ;;
  bar <- create_progress_bar percent 20 ;;
  estimate <- estimated_final_size_mb (output_size st) percent ;;
  shown_duration <- format_duration (duration (video_info st)) ;;
  Returned {| r_current_frame := current_frame;
              r_total_frames := total_frames;
              r_progress_bar := bar;
              r_progress_percent := percent;
              r_current_fps := current_fps s;
              r_current_size_mb := current_size_mb s;
              r_estimated_final_size_mb := estimate;
              r_encoded_time := encoded_time s;
              r_video_duration_formatted := shown_duration;
              r_time_remaining := format_time_remaining secs;
              r_current_bitrate := current_bitrate s;
              r_encoding_speed := encoding_speed s |}.

(** Lines 264-303. *)
Definition present (st : TrackerState) (line : string) (s : ProgressSample) : Action :=
  match frame_match s, known_total_frames (video_info st),
        known_video_fps (video_info st), positive (encoding_speed s) with
  | Some group, Some total_frames, Some video_fps, true =>
      match Py.int_of_str group with
      | Some current_frame =>
          match status_of st s current_frame total_frames video_fps with
          | Returned status => RenderStatus status
          | Raised e => Failed e
          end
      | None => Failed ValueError
      end
  | _, _, _, _ => PassThroughInPlace line
  end.

(** Lines 222-306: the body of the loop for the line [raw] as read. *)
Definition observe (st : TrackerState) (raw : string) : Action :=
  let line := Py.strip raw in
  match line with
  | EmptyString => Ignore
  | _ =>
      if Py.startswith "frame=" line then
        match extract line with
        | Returned s => present st line s
        | Raised e => Failed e
        end
      else PassThrough line
  end.

(** ** Exit handling and the log *)

(** Lines 322-330. *)
Definition calculate_size_reduction (original_size encoded_size : Z) : outcome string :=
  q <- true_div (original_size - encoded_size) original_size ;;
  original_mb <- true_div original_size (1024 ^ 2) ;;
  encoded_mb <- true_div encoded_size (1024 ^ 2) ;;
  Returned ("Original: " ++ f1 original_mb ++ "MB" ++ LF
            ++ "Encoded: " ++ f1 encoded_mb ++ "MB" ++ LF
            ++ "Reduction: " ++ f1 (mul q (const 100)) ++ "%").

Record EncodeResult : Type := {
  shown : list Action;
  report : Report;
  log : option string
}.

(** Lines 217-306: the loop over the lines read, up to the first exception;
    the flag tells whether the end of the stream was reached. *)
Fixpoint progress_loop (info : MediaInfo) (stream : list (string * option Z))
  : list Action * bool :=
  match stream with
  | [] => ([], true)
  | (raw, size) :: rest =>
      let a := observe {| video_info := info; output_size := size |} raw in
      match a with
      | Failed _ => ([a], false)
      | _ => let '(acts, ok) := progress_loop info rest in (a :: acts, ok)
      end
  end.

(** Lines 308-316, with the handler of line 318. *)
Definition on_exit (return_code original_size : Z) (final_output_size : option Z)
  : Report * option string :=
  if negb (return_code =? 0) then (ExitedWithError return_code, None)
  else
    match final_output_size with
    | None => (EncodingCompleted, None)
    | Some encoded_size =>
        match calculate_size_reduction original_size encoded_size with
        | Returned text => (EncodingCompleted, Some text)
        | Raised _ => (EncodingFailed, None)
        end
    end.

(** Lines 158-320. *)
Definition encode_video (run : EncoderRun) : EncodeResult :=
  match input_size run with
  | None => {| shown := []; report := InputNotFound; log := None |}
  | Some original_size =>
      let info := get_video_info (probe run) in
      match process run with
      | LaunchRaised => {| shown := []; report := EncodingFailed; log := None |}
      | Exited stream return_code =>
          match progress_loop info stream with
          | (acts, false) => {| shown := acts; report := EncodingFailed; log := None |}
          | (acts, true) =>
              let '(rep, text) :=
                on_exit return_code original_size (final_output_size run) in
              {| shown := acts; report := rep; log := text |}
          end
      end
  end.

(** Lines 353-360. *)
Definition encode_and_log (run : EncoderRun) : option string :=
  match log (encode_video run) with
  | Some text => if String.eqb text EmptyString then None else Some text
  | None => None
  end.

End F64.
(** * Properties *)

(** ** Characters and digit strings *)

Lemma digit_not_blank (c : ascii) : Py.isdigit c = true -> Py.isblank c = false.
Proof.
  ascii_cases c; vm_compute; congruence.
Qed.

Lemma digit_not_sign (c : ascii) :
  Py.isdigit c = true -> c <> "-"%char /\ c <> "+"%char /\ c <> "_"%char.
Proof.
  ascii_cases c; vm_compute; intros H;
    try discriminate H; repeat split; discriminate.
Qed.

Lemma uint_of_char_digit (c : ascii) (d : Decimal.uint) :
  Py.isdigit c = true -> exists d', uint_of_char c (Some d) = Some d'.
Proof.
  ascii_cases c; vm_compute; intros H;
    try discriminate H; eexists; reflexivity.
Qed.

Lemma uint_of_string_digits (s : string) :
  all_chars Py.isdigit s = true -> exists d, NilEmpty.uint_of_string s = Some d.
Proof.
  induction s as [|c r IH]; simpl.
  - intros _. exists Decimal.Nil. reflexivity.
  - intros H. apply andb_prop in H. destruct H as [Hc Hr].
    destruct (IH Hr) as [d Hd]. rewrite Hd.
    apply uint_of_char_digit. exact Hc.
Qed.

Lemma digits_value_digits (s : string) :
  all_chars Py.isdigit s = true -> exists n, Py.digits_value s = Some n /\ 0 <= n.
Proof.
  intros H. destruct (uint_of_string_digits s H) as [d Hd].
  unfold Py.digits_value. rewrite Hd. simpl.
  exists (Z.of_uint d). split; [reflexivity|].
  unfold Z.of_uint. apply N2Z.is_nonneg.
Qed.

Lemma digit_groups_digits (s : string) (prev : bool) :
  s <> EmptyString -> all_chars Py.isdigit s = true ->
  Py.digit_groups prev s = Some s.
Proof.
  revert prev. induction s as [|c r IH]; intros prev Hne H.
  - congruence.
  - simpl in H. apply andb_prop in H. destruct H as [Hc Hr].
    simpl. rewrite Hc. destruct r as [|c' r'].
    + reflexivity.
    + rewrite (IH true); [reflexivity | discriminate | exact Hr].
Qed.

Lemma lskip_digits (s : string) :
  all_chars Py.isdigit s = true -> Py.lskip s = s.
Proof.
  destruct s as [|c r]; simpl; [reflexivity|].
  intros H. apply andb_prop in H. destruct H as [Hc _].
  rewrite (digit_not_blank c Hc). reflexivity.
Qed.

Lemma rskip_digits (s : string) :
  all_chars Py.isdigit s = true -> Py.rskip s = s.
Proof.
  induction s as [|c r IH]; simpl; [reflexivity|].
  intros H. apply andb_prop in H. destruct H as [Hc Hr].
  rewrite (IH Hr). destruct r; [|reflexivity].
  rewrite (digit_not_blank c Hc). reflexivity.
Qed.

(** [int] never raises on the text a [\d+] group captures. *)
Lemma int_of_str_digits (s : string) :
  s <> EmptyString -> all_chars Py.isdigit s = true ->
  exists n, Py.int_of_str s = Some n /\ 0 <= n.
Proof.
  intros Hne H.
  destruct (digits_value_digits s H) as [n [Hn Hpos]].
  exists n. split; [|exact Hpos].
  unfold Py.int_of_str, Py.skip_blanks.
  rewrite (lskip_digits s H), (rskip_digits s H).
  destruct s as [|c r]; [congruence|].
  simpl in H. apply andb_prop in H. destruct H as [Hc Hr].
  assert (Hu : Py.unsigned_int (String c r) = Some n).
  { unfold Py.unsigned_int. rewrite digit_groups_digits; [exact Hn | discriminate |].
    simpl. rewrite Hc. exact Hr. }
  destruct (digit_not_sign c Hc) as [Hm [Hp _]].
  ascii_cases c; try exact Hu; congruence.
Qed.

(** ** Truth value of a float *)



(** ** The patterns *)

Lemma take_while_all (f : ascii -> bool) (s t r : string) :
  Re.take_while f s = (t, r) -> all_chars f t = true /\ s = t ++ r.
Proof.
  revert t r. induction s as [|c s IH]; simpl; intros t r H.
  - injection H as <- <-. split; reflexivity.
  - destruct (f c) eqn:Hc.
    + destruct (Re.take_while f s) as [t' r'] eqn:Hs.
      injection H as <- <-. destruct (IH t' r' eq_refl) as [Ha He].
      simpl. rewrite Hc, Ha, <- He. split; reflexivity.
    + injection H as <- <-. split; reflexivity.
Qed.

Lemma digits1_digits (s g r : string) :
  Re.digits1 s = Some (g, r) ->
  g <> EmptyString /\ all_chars Py.isdigit g = true.
Proof.
  unfold Re.digits1. destruct (Re.take_while Py.isdigit s) as [t r'] eqn:Ht.
  destruct (take_while_all _ _ _ _ Ht) as [Ha _].
  destruct t as [|c t]; [discriminate|].
  intros H. injection H as <- <-. split; [discriminate | exact Ha].
Qed.

Lemma search_some {A : Type} (at_pos : string -> option A) (s : string) (a : A) :
  Re.search at_pos s = Some a -> exists u, at_pos u = Some a.
Proof.
  induction s as [|c s IH]; simpl.
  - destruct (at_pos EmptyString) eqn:H0; [|discriminate].
    intros H. injection H as <-. eexists; exact H0.
  - destruct (at_pos (String c s)) eqn:H0.
    + intros H. injection H as <-. eexists; exact H0.
    + exact IH.
Qed.

Lemma key_digits_group (key s g : string) :
  Re.key_digits key s = Some g ->
  g <> EmptyString /\ all_chars Py.isdigit g = true.
Proof.
  unfold Re.key_digits. destruct (Re.strip_prefix key s) as [r|]; [|discriminate].
  destruct (Re.digits1 (Py.lstrip r)) as [[g' rest]|] eqn:Hd; [|discriminate].
  simpl. intros H. injection H as <-. exact (digits1_digits _ _ _ Hd).
Qed.

Lemma size_at_group (s g : string) :
  Re.size_at s = Some g -> g <> EmptyString /\ all_chars Py.isdigit g = true.
Proof.
  unfold Re.size_at. destruct (Re.strip_prefix "size=" s) as [r|]; [|discriminate].
  destruct (Re.digits1 (Py.lstrip r)) as [[g' rest]|] eqn:Hd; [|discriminate].
  destruct (Py.startswith "KiB" rest); [|discriminate].
  intros H. injection H as <-. exact (digits1_digits _ _ _ Hd).
Qed.

(** The frame number of a recognised line is a natural number: [int] does
    not raise on it. *)
Lemma frame_re_int (line g : string) :
  Re.frame_re line = Some g -> exists n, Py.int_of_str g = Some n /\ 0 <= n.
Proof.
  intros H. destruct (search_some _ _ _ H) as [u Hu].
  destruct (key_digits_group _ _ _ Hu) as [Hne Hd].
  exact (int_of_str_digits g Hne Hd).
Qed.

Lemma int_group_fps (line : string) :
  exists n, int_group (Re.fps_re line) = Return n
            /\ (Re.fps_re line = None -> n = 0).
Proof.
  destruct (Re.fps_re line) as [g|] eqn:H.
  - destruct (search_some _ _ _ H) as [u Hu].
    destruct (key_digits_group _ _ _ Hu) as [Hne Hd].
    destruct (int_of_str_digits g Hne Hd) as [n [Hn _]].
    exists n. simpl. rewrite Hn. split; [reflexivity | discriminate].
  - exists 0. split; reflexivity.
Qed.

Lemma int_group_size (line : string) :
  exists n, int_group (Re.size_re line) = Return n
            /\ (Re.size_re line = None -> n = 0).
Proof.
  destruct (Re.size_re line) as [g|] eqn:H.
  - destruct (search_some _ _ _ H) as [u Hu].
    destruct (size_at_group _ _ Hu) as [Hne Hd].
    destruct (int_of_str_digits g Hne Hd) as [n [Hn _]].
    exists n. simpl. rewrite Hn. split; [reflexivity | discriminate].
  - exists 0. split; reflexivity.
Qed.

(** [extract] returns as soon as the two [float] conversions do; the values
    of absent fields are the initial ones. *)
Lemma extract_returns (line : string) (speed bitrate : Q) :
  float_group (Re.speed_re line) = Return speed ->
  float_group (Re.bitrate_re line) = Return bitrate ->
  exists s, extract line = Return s
    /\ frame_match s = Re.frame_re line
    /\ encoding_speed s = speed
    /\ current_bitrate s = bitrate
    /\ encoded_time s = encoded_time_of (Re.time_re line)
    /\ (Re.fps_re line = None -> current_fps s = 0)
    /\ (Re.size_re line = None -> current_size_kb s = 0).
Proof.
  intros Hs Hb.
  destruct (int_group_fps line) as [f [Hf Hf0]].
  destruct (int_group_size line) as [k [Hk Hk0]].
  unfold extract. rewrite Hs, Hf, Hk, Hb. simpl.
  eexists. split; [reflexivity|]. simpl. repeat split; assumption.
Qed.

(** [extract] raises only on a speed or bitrate text that [float] rejects. *)
Lemma extract_raises (line text : string) :
  extract line = Raise text ->
  Py.float_of_str text = None
  /\ (Re.speed_re line = Some text \/ Re.bitrate_re line = Some text).
Proof.
  unfold extract.
  destruct (int_group_fps line) as [f [Hf _]].
  destruct (int_group_size line) as [k [Hk _]].
  rewrite Hf, Hk.
  destruct (Re.speed_re line) as [t|] eqn:Hs; simpl.
  - destruct (Py.float_of_str t) eqn:Ht; simpl.
    + destruct (Re.bitrate_re line) as [t'|] eqn:Hb; simpl; [|discriminate].
      destruct (Py.float_of_str t') eqn:Ht'; simpl; [discriminate|].
      intros H. injection H as <-. split; [exact Ht' | right; reflexivity].
    + intros H. injection H as <-. split; [exact Ht | left; reflexivity].
  - destruct (Re.bitrate_re line) as [t'|] eqn:Hb; simpl; [|discriminate].
    destruct (Py.float_of_str t') eqn:Ht'; simpl; [discriminate|].
    intros H. injection H as <-. split; [exact Ht' | right; reflexivity].
Qed.

(** ** The loop body *)


(** A progress line is handed to [extract] and then to [present]. *)
Lemma observe_progress (st : TrackerState) (raw : string) :
  Py.startswith "frame=" (Py.strip raw) = true ->
  observe st raw =
    match extract (Py.strip raw) with
    | Return s => present st (Py.strip raw) s
    | Raise text => Failed text
    end.
Proof.
  intros Hp. unfold observe.
  destruct (Py.strip raw) as [|c r] eqn:E; [discriminate Hp|].
  rewrite Hp. reflexivity.
Qed.


(** With the four inputs known, [present] renders. *)
Lemma present_renders (st : TrackerState) (line group : string) (s : ProgressSample)
    (current_frame total_frames : Z) (video_fps : Q) :
  frame_match s = Some group ->
  Py.int_of_str group = Some current_frame ->
  known_total_frames (video_info st) = Some total_frames ->
  known_video_fps (video_info st) = Some video_fps ->
  (0 < encoding_speed s)%Q ->
  present st line s = RenderStatus (status_of st s current_frame total_frames video_fps).
Proof.
  intros Hf Hi Ht Hv Hs. unfold present. rewrite Hf, Ht, Hv, Hi.
  destruct (Qlt_le_dec 0 (encoding_speed s)) as [_|Hle]; [reflexivity|].
  exfalso. exact (Qlt_not_le _ _ Hs Hle).
Qed.

(** The whole iteration on a line whose four inputs are known. *)
Lemma observe_renders (st : TrackerState) (raw group : string)
    (total_frames : Z) (video_fps speed bitrate : Q) :
  Py.startswith "frame=" (Py.strip raw) = true ->
  Re.frame_re (Py.strip raw) = Some group ->
  known_total_frames (video_info st) = Some total_frames ->
  known_video_fps (video_info st) = Some video_fps ->
  float_group (Re.speed_re (Py.strip raw)) = Return speed ->
  (0 < speed)%Q ->
  float_group (Re.bitrate_re (Py.strip raw)) = Return bitrate ->
  exists s current_frame,
    extract (Py.strip raw) = Return s
    /\ Py.int_of_str group = Some current_frame
    /\ 0 <= current_frame
    /\ encoding_speed s = speed
    /\ observe st raw =
         RenderStatus (status_of st s current_frame total_frames video_fps).
Proof.
  intros Hp Hf Ht Hv Hs Hpos Hb.
  destruct (extract_returns _ _ _ Hs Hb) as [s [He [Hfm [Hsp _]]]].
  destruct (frame_re_int _ _ Hf) as [n [Hn Hn0]].
  exists s, n. repeat split; try assumption.
  rewrite (observe_progress st raw Hp), He.
  apply present_renders with (group := group); try assumption.
  - rewrite Hfm. exact Hf.
  - rewrite Hsp. exact Hpos.
Qed.

(** The loop body raises only on a speed or bitrate text that [float]
    rejects. *)
Lemma observe_failed (st : TrackerState) (raw text : string) :
  observe st raw = Failed text ->
  Py.float_of_str text = None
  /\ (Re.speed_re (Py.strip raw) = Some text
      \/ Re.bitrate_re (Py.strip raw) = Some text).
Proof.
  unfold observe. destruct (Py.strip raw) as [|c r] eqn:E; [discriminate|].
  destruct (Py.startswith "frame=" (String c r)); [|discriminate].
  destruct (extract (String c r)) as [s|t] eqn:He.
  - unfold present.
    pose proof (extract_returns (String c r) (encoding_speed s) (current_bitrate s)) as Hr.
    destruct (frame_match s) as [g|] eqn:Hg; [|discriminate].
    destruct (known_total_frames (video_info st)); [|discriminate].
    destruct (known_video_fps (video_info st)); [|discriminate].
    destruct (Qlt_le_dec 0 (encoding_speed s)); [|discriminate].
    assert (Hf : Re.frame_re (String c r) = Some g).
    { unfold extract, bind in He.
      destruct (float_group (Re.speed_re (String c r))); [|discriminate].
      destruct (int_group (Re.fps_re (String c r))); [|discriminate].
      destruct (int_group (Re.size_re (String c r))); [|discriminate].
      destruct (float_group (Re.bitrate_re (String c r))); [|discriminate].
      injection He as <-. exact Hg. }
    destruct (frame_re_int _ _ Hf) as [n [Hn _]]. rewrite Hn. discriminate.
  - intros H. injection H as <-. exact (extract_raises _ _ He).
Qed.

(** ** The model at work *)

(** The status line for a usual progress line, character by character. *)
Example observe_usual_line :
  stdout_of (observe clip_state (usual_line ++ LF))
  = CR ++ "Frame:     50/   100 | ██████████░░░░░░░░░░  50.0% |  25fps |   0.5MB / est.    2.0MB | Encoded: 00:00:02 / 00:00:04 | est. 00:00:01 remaining | 2097.2kb/s | 1.0x | Est. Size:    2.0MB".
Proof. vm_compute. reflexivity. Qed.

(** The same line before the probe succeeded is printed in place. *)
Example observe_without_probe :
  observe {| video_info := no_info; output_size := None |} (usual_line ++ LF)
  = PassThroughInPlace usual_line.
Proof. vm_compute. reflexivity. Qed.

(** A progress line with the frame number and the speed only: every other
    field shows its default. *)
Example observe_bare_line :
  stdout_of (observe clip_state bare_line)
  = CR ++ "Frame:     50/   100 | ██████████░░░░░░░░░░  50.0% |   0fps |   0.0MB / est.    2.0MB | Encoded: 00:00:00 / 00:00:04 | est. 00:00:01 remaining |    0.0kb/s | 2.0x | Est. Size:    2.0MB".
Proof. vm_compute. reflexivity. Qed.

(** A blank line is ignored. *)
Example observe_blank_line :
  observe clip_state ("   " ++ LF) = Ignore.
Proof. reflexivity. Qed.

(** The probe of a 10.5 second clip at 29.97 frames per second. *)
Example probe_usual_output :
  get_video_info (ProbeOutput usual_output)
  = {| frame_count := Some 314;
       fps := Some (30000 # 1001);
       duration := Some (10500000 # 1000000) |}.
Proof. reflexivity. Qed.

(** A whole run: the banner line, one status, exit code 0. *)
Example encode_good_run :
  report (encode_video good_run) = EncodingCompleted
  /\ List.length (shown (encode_video good_run)) = 2%nat.
Proof. split; reflexivity. Qed.

(** ** Claims about the loop body *)











(** ** Time remaining *)


(** On a non-negative float [int] is the floor. *)
Lemma int_of_float_floor (x : Q) : (0 <= x)%Q -> Py.int_of_float x = Qfloor x.
Proof.
  unfold Qle, Py.int_of_float. destruct x as [n d]. simpl. intros H.
  apply Z.quot_div_nonneg; lia.
Qed.








(** ** Decimal numerals *)

Lemma length_append (s t : string) :
  String.length (s ++ t) = (String.length s + String.length t)%nat.
Proof.
  induction s as [|c s IH]; simpl; [reflexivity | rewrite IH; reflexivity].
Qed.

Lemma length_zeros (n : nat) : String.length (Fmt.zeros n) = n.
Proof.
  unfold Fmt.zeros.
  induction n as [|n IH]; simpl; [reflexivity | rewrite IH; reflexivity].
Qed.

(** Reading back the decimal digits of a natural number gives the number. *)
Lemma digits_value_str_int (n : Z) : 0 <= n -> Py.digits_value (Py.str_int n) = Some n.
Proof.
  intros Hn. unfold Py.digits_value, Py.str_int.
  destruct n as [|p|p]; [reflexivity | | lia].
  simpl. unfold NilZero.string_of_uint.
  pose proof (DecimalPos.Unsigned.to_uint_nonnil p) as Hnil.
  destruct (Pos.to_uint p) eqn:E; try congruence;
    rewrite <- E, NilEmpty.usu; simpl; unfold Z.of_uint;
    rewrite DecimalPos.Unsigned.of_to; reflexivity.
Qed.

(** Leading zeros do not change the value read. *)
Lemma digits_value_zeros (k : nat) (s : string) :
  Py.digits_value (Fmt.zeros k ++ s) = Py.digits_value s.
Proof.
  unfold Fmt.zeros. induction k as [|k IH]; [reflexivity|].
  change (Py.repeat_nat "0" (S k) ++ s)
    with (String "0" (Py.repeat_nat "0" k ++ s)).
  rewrite <- IH. unfold Py.digits_value.
  change (NilEmpty.uint_of_string (String "0" (Py.repeat_nat "0" k ++ s)))
    with (uint_of_char "0" (NilEmpty.uint_of_string (Py.repeat_nat "0" k ++ s))).
  destruct (NilEmpty.uint_of_string (Py.repeat_nat "0" k ++ s)) as [d|];
    reflexivity.
Qed.

(** [{n:02d}] of a natural number: the number is read back from it, and it
    has at least two characters. *)
Lemma d_zero_value (n : Z) :
  0 <= n ->
  Py.digits_value (Fmt.d_zero 2 n) = Some n
  /\ (2 <= String.length (Fmt.d_zero 2 n))%nat.
Proof.
  intros Hn. unfold Fmt.d_zero.
  destruct (n <? 0) eqn:E; [apply Z.ltb_lt in E; lia|].
  split.
  - rewrite digits_value_zeros. apply digits_value_str_int. exact Hn.
  - rewrite length_append, length_zeros. lia.
Qed.

(** Below one hundred [{n:02d}] has exactly two characters. *)
Lemma d_zero_two (n : Z) :
  0 <= n < 100 -> String.length (Fmt.d_zero 2 n) = 2%nat.
Proof.
  intros Hn.
  assert (H : forall k : nat, (k < 100)%nat ->
                String.length (Fmt.d_zero 2 (Z.of_nat k)) = 2%nat).
  { intros k Hk.
    do 100 (destruct k as [|k]; [reflexivity|]). lia. }
  rewrite <- (Z2Nat.id n) by lia. apply H. lia.
Qed.

(** Below ten the numeral is one digit. *)
Lemma str_int_digit (n : Z) :
  0 <= n < 10 -> exists c, Py.str_int n = String c EmptyString /\ Py.isdigit c = true.
Proof.
  intros H.
  assert (Hk : forall k : nat, (k < 10)%nat ->
            exists c, Py.str_int (Z.of_nat k) = String c EmptyString
                      /\ Py.isdigit c = true).
  { intros k Hk.
    do 10 (destruct k as [|k]; [eexists; split; reflexivity|]). lia. }
  rewrite <- (Z2Nat.id n) by lia. apply Hk. lia.
Qed.

Lemma single_digit_value (c : ascii) (n : Z) :
  Py.digits_value (String c EmptyString) = Some n -> n < 10.
Proof.
  ascii_cases c; vm_compute; intros H;
    try discriminate H; injection H as <-; reflexivity.
Qed.

(** From ten on the numeral has at least two characters. *)
Lemma str_int_long (n : Z) : 10 <= n -> (2 <= String.length (Py.str_int n))%nat.
Proof.
  intros Hn. pose proof (digits_value_str_int n ltac:(lia)) as Hv.
  destruct (Py.str_int n) as [|c [|c' r]]; simpl.
  - vm_compute in Hv. injection Hv as <-. lia.
  - apply single_digit_value in Hv. lia.
  - lia.
Qed.

(** [{n:02d}] of a natural number is the number on at least two digits. *)
Lemma d_zero_two_digits (n : Z) : 0 <= n -> Fmt.d_zero 2 n = two_digits n.
Proof.
  intros Hn. unfold Fmt.d_zero, two_digits.
  destruct (n <? 0) eqn:E; [apply Z.ltb_lt in E; lia|].
  destruct (n <? 10) eqn:E10.
  - apply Z.ltb_lt in E10.
    destruct (str_int_digit n ltac:(lia)) as [c [Hc _]]. rewrite Hc. reflexivity.
  - apply Z.ltb_ge in E10. pose proof (str_int_long n E10) as Hl.
    replace (2 - String.length (Py.str_int n))%nat with 0%nat by lia.
    reflexivity.
Qed.

(** C7.  For every number of seconds that is not negative, the time
    remaining is [HH:MM:SS], each field on at least two digits: the hours
    [secs // 3600], the minutes [(secs % 3600) // 60] and the seconds
    [secs % 60], which recompose [secs].  The fields read back as these
    numbers; minutes and seconds are below sixty and have exactly two digits;
    the hours are not bounded, and from one hundred hours on the field is the
    plain numeral.  3661 gives [01:01:01], 0 gives [00:00:00] and 360000
    gives [100:00:00]. *)
Theorem time_remaining_hms :
  (forall secs : Z, 0 <= secs ->
     let hours := secs / 3600 in
     let minutes := secs mod 3600 / 60 in
     let seconds := secs mod 60 in
     format_time_remaining secs
     = two_digits hours ++ ":" ++ two_digits minutes ++ ":" ++ two_digits seconds
     /\ hours * 3600 + minutes * 60 + seconds = secs
     /\ 0 <= hours /\ 0 <= minutes < 60 /\ 0 <= seconds < 60
     /\ Py.digits_value (two_digits hours) = Some hours
     /\ Py.digits_value (two_digits minutes) = Some minutes
     /\ Py.digits_value (two_digits seconds) = Some seconds
     /\ String.length (two_digits minutes) = 2%nat
     /\ String.length (two_digits seconds) = 2%nat
     /\ (2 <= String.length (two_digits hours))%nat
     /\ (100 <= hours -> two_digits hours = Py.str_int hours))
  /\ format_time_remaining 3661 = "01:01:01"
  /\ format_time_remaining 0 = "00:00:00"
  /\ format_time_remaining 360000 = "100:00:00".
Proof.
  split; [|repeat split; reflexivity].
  intros secs Hs hours minutes seconds.
  assert (Hh : 0 <= hours) by (apply Z.div_pos; lia).
  assert (Hr : 0 <= secs mod 3600 < 3600) by (apply Z.mod_pos_bound; lia).
  assert (Hm : 0 <= minutes < 60).
  { split; [apply Z.div_pos; lia | apply Z.div_lt_upper_bound; lia]. }
  assert (Hsec : 0 <= seconds < 60) by (apply Z.mod_pos_bound; lia).
  assert (Hsum : hours * 3600 + minutes * 60 + seconds = secs).
  { pose proof (Z.div_mod secs 3600 ltac:(lia)) as E1.
    pose proof (Z.div_mod (secs mod 3600) 60 ltac:(lia)) as E2.
    assert (E3 : (secs mod 3600) mod 60 = secs mod 60).
    { apply Z.mod_mod_divide. exists 60. reflexivity. }
    unfold hours, minutes, seconds. lia. }
  rewrite <- (d_zero_two_digits hours Hh).
  rewrite <- (d_zero_two_digits minutes) by lia.
  rewrite <- (d_zero_two_digits seconds) by lia.
  split; [reflexivity|]. split; [exact Hsum|].
  split; [exact Hh|]. split; [exact Hm|]. split; [exact Hsec|].
  split; [apply d_zero_value; exact Hh|].
  split; [apply d_zero_value; lia|].
  split; [apply d_zero_value; lia|].
  split; [apply d_zero_two; lia|].
  split; [apply d_zero_two; lia|].
  split; [apply d_zero_value; exact Hh|].
  intros H100. rewrite (d_zero_two_digits hours Hh). unfold two_digits.
  destruct (hours <? 10) eqn:E; [apply Z.ltb_lt in E; lia | reflexivity].
Qed.

Lemma time_remaining_hms_witness :
  0 <= 86399
  /\ format_time_remaining 86399
     = two_digits 23 ++ ":" ++ two_digits 59 ++ ":" ++ two_digits 59
  /\ 23 * 3600 + 59 * 60 + 59 = 86399.
Proof.
  split; [lia|].
  destruct (proj1 time_remaining_hms 86399 ltac:(lia)) as [Hf [Hsum _]].
  split; [exact Hf | exact Hsum].
Defined.

(** ** Percentage and progress bar *)








(** ** The prober *)



(** The three shapes of the result. *)
Lemma get_video_info_output (stdout fps_fraction : string) (rest : list string) :
  Py.split "," (Py.strip stdout) = fps_fraction :: rest ->
  get_video_info (ProbeOutput stdout) =
    match parse_fps fps_fraction with
    | None => no_info
    | Some x =>
        match rest with
        | [] => {| frame_count := None; fps := Some x; duration := None |}
        | field :: _ =>
            match Py.float_of_str field with
            | None => no_info
            | Some d =>
                {| frame_count := count_frames d x; fps := Some x; duration := Some d |}
            end
        end
    end.
Proof.
  intros H. unfold get_video_info. rewrite H. reflexivity.
Qed.

Lemma split_nonempty (sep : ascii) (s : string) : Py.split sep s <> [].
Proof.
  destruct s as [|c r]; simpl; [discriminate|].
  destruct (Ascii.eqb c sep); [discriminate|].
  destruct (Py.split sep r); discriminate.
Qed.

(** C4, as stated, fails: when the tool prints the frame rate without a
    duration field, the frame rate is kept. *)
Lemma missing_duration_keeps_fps :
  Py.split "," (Py.strip fps_only_output) = ["30/1"]
  /\ get_video_info (ProbeOutput fps_only_output)
     = {| frame_count := None; fps := Some (30 # 1); duration := None |}
  /\ get_video_info (ProbeOutput fps_only_output) <> no_info.
Proof.
  split; [reflexivity|]. split; [reflexivity|]. vm_compute. discriminate.
Qed.

(** C4 (amended).  [get_video_info] is total: it returns a dictionary for
    every outcome of the tool.  All three fields are absent when the tool
    raises (non-zero exit included), when the frame rate does not parse (a
    zero denominator and an empty output included), and when a duration
    field is there and does not parse.  When the duration field is missing, the frame rate is kept
    and the duration and the frame count are absent.  In every case the
    result is the all-absent one or holds a frame rate. *)
Theorem probe_failures_absent :
  get_video_info ProbeRaised = no_info
  /\ (forall stdout fps_fraction rest,
        Py.split "," (Py.strip stdout) = fps_fraction :: rest ->
        parse_fps fps_fraction = None ->
        get_video_info (ProbeOutput stdout) = no_info)
  /\ (forall fps_fraction num den,
        Py.contains "/" fps_fraction = true ->
        map Py.int_of_str (Py.split "/" fps_fraction) = [Some num; Some den] ->
        den = 0 ->
        parse_fps fps_fraction = None)
  /\ get_video_info (ProbeOutput zero_denominator_output) = no_info
  /\ get_video_info (ProbeOutput EmptyString) = no_info
  /\ (forall stdout fps_fraction field rest,
        Py.split "," (Py.strip stdout) = fps_fraction :: field :: rest ->
        Py.float_of_str field = None ->
        get_video_info (ProbeOutput stdout) = no_info)
  /\ (forall stdout fps_fraction x,
        Py.split "," (Py.strip stdout) = [fps_fraction] ->
        parse_fps fps_fraction = Some x ->
        get_video_info (ProbeOutput stdout)
        = {| frame_count := None; fps := Some x; duration := None |})
  /\ (forall probe,
        get_video_info probe = no_info
        \/ exists x, fps (get_video_info probe) = Some x).
Proof.
  split; [reflexivity|]. split.
  { intros stdout f rest Hs Hf. rewrite (get_video_info_output _ _ _ Hs), Hf.
    reflexivity. }
  split.
  { intros f num den Hc Hm ->. unfold parse_fps. rewrite Hc, Hm. reflexivity. }
  split; [reflexivity|]. split; [reflexivity|]. split.
  { intros stdout f field rest Hs Hd. rewrite (get_video_info_output _ _ _ Hs).
    destruct (parse_fps f); [|reflexivity]. rewrite Hd. reflexivity. }
  split.
  { intros stdout f x Hs Hf. rewrite (get_video_info_output _ _ _ Hs), Hf.
    reflexivity. }
  intros [|stdout]; [left; reflexivity|].
  destruct (Py.split "," (Py.strip stdout)) as [|f rest] eqn:Hs.
  { exfalso. exact (split_nonempty _ _ Hs). }
  rewrite (get_video_info_output _ _ _ Hs).
  destruct (parse_fps f) as [x|]; [|left; reflexivity].
  destruct rest as [|field rest]; [right; exists x; reflexivity|].
  destruct (Py.float_of_str field); [right; exists x; reflexivity | left; reflexivity].
Qed.

Lemma probe_failures_absent_witness :
  get_video_info (ProbeOutput ("24000/1001,N/A" ++ LF)) = no_info
  /\ get_video_info (ProbeOutput ("abc,1.0" ++ LF)) = no_info.
Proof.
  destruct probe_failures_absent as [_ [Hfps [_ [_ [_ [Hdur _]]]]]].
  split.
  - apply (Hdur ("24000/1001,N/A" ++ LF) "24000/1001" "N/A" []); reflexivity.
  - apply (Hfps ("abc,1.0" ++ LF) "abc" ["1.0"]); reflexivity.
Defined.




(** ** Exit handling and the log *)







(** * Properties of the rest of the script *)

(** ** Numerals read back *)

Lemma all_chars_append (f : ascii -> bool) (a b : string) :
  all_chars f (a ++ b) = all_chars f a && all_chars f b.
Proof.
  induction a as [|c a IH]; simpl; [reflexivity|].
  rewrite IH. apply andb_assoc.
Qed.

Lemma string_of_uint_digits (d : Decimal.uint) :
  all_chars Py.isdigit (NilEmpty.string_of_uint d) = true.
Proof.
  induction d; simpl; try rewrite IHd; reflexivity.
Qed.

(** The numeral of a natural number is a non-empty run of digits. *)
Lemma str_int_digits (n : Z) :
  0 <= n -> Py.str_int n <> EmptyString /\ all_chars Py.isdigit (Py.str_int n) = true.
Proof.
  intros Hn. unfold Py.str_int.
  destruct n as [|p|p]; [split; [discriminate | reflexivity] | | lia].
  simpl. unfold NilZero.string_of_uint.
  pose proof (DecimalPos.Unsigned.to_uint_nonnil p) as Hnil.
  destruct (Pos.to_uint p) eqn:E; try congruence;
    (split; [discriminate | rewrite <- E; apply string_of_uint_digits]).
Qed.

(** On a non-empty run of digits [int] is the value of the digits. *)
Lemma int_of_str_value (s : string) :
  s <> EmptyString -> all_chars Py.isdigit s = true ->
  Py.int_of_str s = Py.digits_value s.
Proof.
  intros Hne H.
  unfold Py.int_of_str, Py.skip_blanks.
  rewrite (lskip_digits s H), (rskip_digits s H).
  destruct s as [|c r]; [congruence|].
  assert (Hu : Py.unsigned_int (String c r) = Py.digits_value (String c r)).
  { unfold Py.unsigned_int. rewrite digit_groups_digits; [reflexivity | discriminate | exact H]. }
  simpl in H. apply andb_prop in H. destruct H as [Hc Hr].
  destruct (digit_not_sign c Hc) as [Hm [Hp _]].
  ascii_cases c; try exact Hu; congruence.
Qed.

Lemma str_int_neg (p : positive) :
  Py.str_int (Z.neg p) = String "-" (Py.str_int (Z.pos p)).
Proof.
  unfold Py.str_int. simpl. unfold NilZero.string_of_uint.
  pose proof (DecimalPos.Unsigned.to_uint_nonnil p) as Hnil.
  destruct (Pos.to_uint p); try congruence; reflexivity.
Qed.

(** [int(str(n))] is [n]. *)
Lemma int_of_str_str_int (n : Z) : Py.int_of_str (Py.str_int n) = Some n.
Proof.
  destruct n as [|p|p].
  - reflexivity.
  - destruct (str_int_digits (Z.pos p) ltac:(lia)) as [Hne Hd].
    rewrite (int_of_str_value _ Hne Hd). apply digits_value_str_int. lia.
  - rewrite str_int_neg.
    destruct (str_int_digits (Z.pos p) ltac:(lia)) as [Hne Hd].
    unfold Py.int_of_str, Py.skip_blanks.
    assert (Hl : Py.lskip (String "-" (Py.str_int (Z.pos p)))
                 = String "-" (Py.str_int (Z.pos p))) by reflexivity.
    rewrite Hl.
    assert (Hr : Py.rskip (String "-" (Py.str_int (Z.pos p)))
                 = String "-" (Py.str_int (Z.pos p))).
    { simpl. rewrite (rskip_digits _ Hd).
      destruct (Py.str_int (Z.pos p)); [congruence | reflexivity]. }
    rewrite Hr.
    assert (Hu : Py.unsigned_int (Py.str_int (Z.pos p)) = Some (Z.pos p)).
    { unfold Py.unsigned_int. rewrite digit_groups_digits by assumption.
      apply digits_value_str_int. lia. }
    rewrite Hu. reflexivity.
Qed.

Lemma str_int_nonempty (n : Z) : Py.str_int n <> EmptyString.
Proof.
  destruct n as [|p|p].
  - discriminate.
  - apply (str_int_digits (Z.pos p)). lia.
  - rewrite str_int_neg. discriminate.
Qed.

(** ** [get_validated_integer_input] *)

(** An attempt that returns has read its value from the text and found it
    within both bounds. *)
Lemma attempt_returns (default_value min_value max_value : option Z)
    (line : string) (v : Z) :
  attempt default_value min_value max_value line = inr v ->
  (forall m, min_value = Some m -> m <= v)
  /\ (forall M, max_value = Some M -> v <= M).
Proof.
  unfold attempt.
  destruct (Py.int_of_str _) as [n|]; [|discriminate].
  destruct min_value as [m|], max_value as [M|];
    repeat match goal with
           | |- context [?a <? ?b] => destruct (Z.ltb_spec a b)
           end;
    intros Hret; inversion Hret; subst;
    split; intros ? Hb; inversion Hb; subst; lia.
Qed.

(** An attempt on a text that reads as an integer within the bounds
    returns it. *)
Lemma attempt_accepts (default_value min_value max_value : option Z)
    (line : string) (v : Z) :
  line <> EmptyString ->
  Py.int_of_str line = Some v ->
  (forall m, min_value = Some m -> m <= v) ->
  (forall M, max_value = Some M -> v <= M) ->
  attempt default_value min_value max_value line = inr v.
Proof.
  intros Hne Hv Hmin Hmax. unfold attempt.
  destruct line as [|c r]; [congruence|].
  rewrite Hv.
  destruct min_value as [m|], max_value as [M|];
    try (specialize (Hmin _ eq_refl)); try (specialize (Hmax _ eq_refl));
    repeat match goal with
           | |- context [?a <? ?b] => destruct (Z.ltb_spec a b)
           end;
    try reflexivity; lia.
Qed.

Lemma validated_input_step (default_value min_value max_value : option Z)
    (line : string) (rest : list string) :
  get_validated_integer_input default_value min_value max_value (line :: rest)
  = match attempt default_value min_value max_value line with
    | inr validated_input => ([], Some (validated_input, rest))
    | inl feedback =>
        (feedback :: fst (get_validated_integer_input default_value min_value max_value rest),
         snd (get_validated_integer_input default_value min_value max_value rest))
    end.
Proof.
  cbn [get_validated_integer_input].
  destruct (attempt default_value min_value max_value line); [|reflexivity].
  destruct (get_validated_integer_input default_value min_value max_value rest).
  reflexivity.
Qed.

(** A value returned was accepted by the attempt on one of the lines. *)
Lemma validated_value_accepted (default_value min_value max_value : option Z)
    (typed unread : list string) (printed : list Feedback) (v : Z) :
  get_validated_integer_input default_value min_value max_value typed
  = (printed, Some (v, unread)) ->
  exists line, In line typed /\ attempt default_value min_value max_value line = inr v.
Proof.
  revert printed.
  induction typed as [|line rest IH]; intros printed; [discriminate|].
  rewrite validated_input_step.
  destruct (attempt default_value min_value max_value line) as [f|n] eqn:E.
  - destruct (get_validated_integer_input default_value min_value max_value rest)
      as [p r] eqn:R.
    cbn [fst snd]. intros H; inversion H; subst.
    destruct (IH p eq_refl) as [l [Hin Hl]].
    exists l. split; [right; exact Hin | exact Hl].
  - intros H; inversion H; subst. exists line. split; [left; reflexivity | exact E].
Qed.

(** X1.  Whatever is typed, a value returned by
    [get_validated_integer_input] is not below the minimum and not above the
    maximum, when these are given; this holds for the default too, which goes
    through the same checks. *)
Theorem validated_input_within_bounds (default_value min_value max_value : option Z)
    (typed unread : list string) (printed : list Feedback) (v : Z) :
  get_validated_integer_input default_value min_value max_value typed
  = (printed, Some (v, unread)) ->
  (forall m, min_value = Some m -> m <= v)
  /\ (forall M, max_value = Some M -> v <= M).
Proof.
  intros H.
  destruct (validated_value_accepted _ _ _ _ _ _ _ H) as [line [_ Hl]].
  exact (attempt_returns _ _ _ _ _ Hl).
Qed.

Lemma validated_input_within_bounds_witness :
  get_validated_integer_input (Some 30) (Some 0) (Some 51) ["64"; "abc"; "28"; "slow"]
  = ([MustBeAtMost 51; NotAnInteger], Some (28, ["slow"]))
  /\ ((forall m, Some 0 = Some m -> m <= 28)
      /\ (forall M, Some 51 = Some M -> 28 <= M)).
Proof.
  split; [reflexivity|].
  apply (validated_input_within_bounds (Some 30) (Some 0) (Some 51)
           ["64"; "abc"; "28"; "slow"] ["slow"] [MustBeAtMost 51; NotAnInteger] 28).
  reflexivity.
Defined.

(** X2.  [get_validated_integer_input] returns the value of the first line
    that an attempt accepts and reads nothing after it; every line before it
    was refused, with one message each, in order.  When the input ends first,
    every line was refused. *)
Theorem validated_input_first_accepted (default_value min_value max_value : option Z)
    (typed : list string) :
  match get_validated_integer_input default_value min_value max_value typed with
  | (printed, Some (v, unread)) =>
      exists refused line,
        typed = (refused ++ line :: unread)%list
        /\ attempt default_value min_value max_value line = inr v
        /\ map (attempt default_value min_value max_value) refused = map inl printed
  | (printed, None) =>
      map (attempt default_value min_value max_value) typed = map inl printed
  end.
Proof.
  induction typed as [|line rest IH]; simpl; [reflexivity|].
  destruct (attempt default_value min_value max_value line) as [f|n] eqn:E.
  - destruct (get_validated_integer_input default_value min_value max_value rest)
      as [p [[v unread]|]] eqn:R.
    + destruct IH as [refused [l [Ht [Ha Hm]]]].
      exists (line :: refused), l. subst rest. simpl.
      split; [reflexivity | split; [exact Ha | congruence]].
    + simpl. congruence.
  - exists [], line. simpl. auto.
Qed.

(** X3.  Typing the decimal numeral of an integer that lies within the
    bounds makes [get_validated_integer_input] return that integer at once,
    negative numbers included: [int] reads back what [str] prints. *)
Theorem validated_input_reads_numeral (default_value min_value max_value : option Z)
    (v : Z) (unread : list string) :
  (forall m, min_value = Some m -> m <= v) ->
  (forall M, max_value = Some M -> v <= M) ->
  get_validated_integer_input default_value min_value max_value (Py.str_int v :: unread)
  = ([], Some (v, unread)).
Proof.
  intros Hmin Hmax. simpl.
  rewrite (attempt_accepts default_value min_value max_value (Py.str_int v) v
             (str_int_nonempty v) (int_of_str_str_int v) Hmin Hmax).
  reflexivity.
Qed.

Lemma validated_input_reads_numeral_witness :
  get_validated_integer_input None (Some (-20)) (Some 63) (Py.str_int (-17) :: ["6"])
  = ([], Some (-17, ["6"])).
Proof.
  apply (validated_input_reads_numeral None (Some (-20)) (Some 63) (-17) ["6"]).
  - intros m E; inversion E; lia.
  - intros M E; inversion E; lia.
Defined.

(** X4.  An empty line stands for the default: it is returned when it lies
    within the bounds, and refused like a typed value when it does not.  With
    no default an empty line is refused as not an integer, because the text
    [None] is what is converted. *)
Theorem empty_line_takes_default (min_value max_value : option Z) (rest : list string) :
  (forall d,
     (forall m, min_value = Some m -> m <= d) ->
     (forall M, max_value = Some M -> d <= M) ->
     get_validated_integer_input (Some d) min_value max_value (EmptyString :: rest)
     = ([], Some (d, rest)))
  /\ (forall d m,
        min_value = Some m -> d < m ->
        get_validated_integer_input (Some d) min_value max_value (EmptyString :: rest)
        = (MustBeAtLeast m
             :: fst (get_validated_integer_input (Some d) min_value max_value rest),
           snd (get_validated_integer_input (Some d) min_value max_value rest)))
  /\ get_validated_integer_input None min_value max_value (EmptyString :: rest)
     = (NotAnInteger :: fst (get_validated_integer_input None min_value max_value rest),
        snd (get_validated_integer_input None min_value max_value rest)).
Proof.
  split; [|split].
  - intros d Hmin Hmax. rewrite validated_input_step.
    assert (E : attempt (Some d) min_value max_value EmptyString = inr d).
    { pose proof (attempt_accepts (Some d) min_value max_value (Py.str_int d) d
                    (str_int_nonempty d) (int_of_str_str_int d) Hmin Hmax) as H.
      unfold attempt in *. cbn [PyText.str_optional].
      destruct (Py.str_int d) eqn:S; [exfalso; exact (str_int_nonempty d S)|].
      exact H. }
    rewrite E. reflexivity.
  - intros d m Hm Hd. subst min_value. rewrite validated_input_step.
    assert (E : attempt (Some d) (Some m) max_value EmptyString = inl (MustBeAtLeast m)).
    { unfold attempt. cbn [PyText.str_optional]. rewrite int_of_str_str_int.
      destruct (Z.ltb_spec d m); [reflexivity | lia]. }
    rewrite E. reflexivity.
  - rewrite validated_input_step.
    assert (E : attempt None min_value max_value EmptyString = inl NotAnInteger)
      by reflexivity.
    rewrite E. reflexivity.
Qed.

(** ** The dialogue of the main block *)

(** X5.  The file names collected are the stripped lines typed before the
    first line that is empty after stripping, in the order typed and with
    repetitions kept, less those that are not files; nothing after that line
    is read.  Without such a line the input ends inside the loop. *)
Theorem collect_videos_until_empty_line (isfile : string -> bool) (typed : list string) :
  match collect_videos isfile typed with
  | Some (videos, unread) =>
      exists entered closing,
        typed = (entered ++ closing :: unread)%list
        /\ Py.strip closing = EmptyString
        /\ Forall (fun line => Py.strip line <> EmptyString) entered
        /\ videos = filter isfile (map Py.strip entered)
  | None => Forall (fun line => Py.strip line <> EmptyString) typed
  end.
Proof.
  induction typed as [|line rest IH]; cbn [collect_videos]; [constructor|].
  destruct (Py.strip line) as [|c r] eqn:E.
  - exists [], line. repeat split; auto.
  - destruct (collect_videos isfile rest) as [[videos unread]|].
    + destruct IH as [entered [closing [Ht [Hc [Hall Hv]]]]].
      exists (line :: entered), closing. subst rest videos.
      split; [reflexivity|]. split; [exact Hc|]. split.
      * constructor; [rewrite E; discriminate | exact Hall].
      * cbn [map filter]. rewrite E. reflexivity.
    + constructor; [rewrite E; discriminate | exact IH].
Qed.

Lemma upper_char_letter (c : ascii) (u : ascii) :
  PyText.upper_char c = u ->
  Nat.leb 65 (nat_of_ascii u) && Nat.leb (nat_of_ascii u) 90 = true ->
  c = u \/ nat_of_ascii c = (nat_of_ascii u + 32)%nat.
Proof.
  intros H Hu. subst u. ascii_cases c; vm_compute in Hu; try discriminate;
    vm_compute; auto.
Qed.



Lemma upper_blank (a : string) :
  PyText.upper (String " " a) = String " " (PyText.upper a).
Proof. reflexivity. Qed.

(** X7.  The format is chosen without regard to case, and an empty answer
    means AV1.  Any other answer ends the script with no further question;
    the answer is not stripped, so one that starts with a blank is among
    them. *)
Theorem encoding_choice (answer : string) (rest : list string) :
  (PyText.upper answer = "HEVC" ->
   choose_settings (answer :: rest) = choose_settings ("HEVC" :: rest))
  /\ (PyText.upper answer = "AV1" \/ answer = EmptyString ->
      choose_settings (answer :: rest) = choose_settings ("AV1" :: rest))
  /\ (answer <> EmptyString -> PyText.upper answer <> "HEVC" ->
      PyText.upper answer <> "AV1" ->
      choose_settings (answer :: rest) = InvalidChoice)
  /\ choose_settings (String " " answer :: rest) = InvalidChoice.
Proof.
  split; [|split; [|split]].
  - intros H. unfold choose_settings. rewrite H. reflexivity.
  - intros [H|H]; unfold choose_settings; [rewrite H | subst answer]; reflexivity.
  - intros Hne Hh Ha. unfold choose_settings.
    destruct (PyText.upper answer) as [|c r] eqn:E.
    + destruct answer; [congruence | discriminate].
    + destruct (String.eqb_spec (String c r) "HEVC"); [congruence|].
      destruct (String.eqb_spec (String c r) "AV1"); [congruence|].
      reflexivity.
  - unfold choose_settings. rewrite upper_blank. reflexivity.
Qed.

(** X8.  The originals are moved to the recycle bin only on the answer [Y]
    or [y]: every other answer, [yes] and the empty line included, leaves
    them in place. *)
Theorem recycle_only_on_y (answer : string) :
  wants_recycle answer = true <-> answer = "Y" \/ answer = "y".
Proof.
  unfold wants_recycle. split.
  - intros H. apply String.eqb_eq in H.
    destruct answer as [|c [|c' r]]; try discriminate.
    cbn [PyText.upper] in H. inversion H as [Hc].
    destruct (upper_char_letter c "Y" Hc eq_refl) as [Hy|Hy].
    + left. congruence.
    + right. rewrite <- (ascii_nat_embedding c), Hy. reflexivity.
  - intros [H|H]; subst; reflexivity.
Qed.

(** ** Setup *)

Lemma first_file_found (isfile : string -> bool) (paths : list string) (p : string) :
  first_file isfile paths = FoundAt p ->
  exists before after,
    paths = (before ++ p :: after)%list
    /\ isfile p = true
    /\ forall q, In q before -> isfile q = false.
Proof.
  induction paths as [|path rest IH]; cbn [first_file]; [discriminate|].
  destruct (isfile path) eqn:E.
  - intros H; inversion H; subst. exists [], rest.
    repeat split; [exact E | intros q []].
  - intros H. destruct (IH H) as [before [after [Hp [Hf Hb]]]].
    exists (path :: before), after. subst rest.
    repeat split; [exact Hf|].
    intros q [Hq|Hq]; [subst; exact E | exact (Hb q Hq)].
Qed.

Lemma first_file_not_found (isfile : string -> bool) (paths : list string) :
  first_file isfile paths = NotFound -> forall q, In q paths -> isfile q = false.
Proof.
  induction paths as [|path rest IH]; cbn [first_file]; [intros _ q []|].
  destruct (isfile path) eqn:E; [discriminate|].
  intros H q [Hq|Hq]; [subst; exact E | exact (IH H q Hq)].
Qed.

Lemma first_file_never_crashes (isfile : string -> bool) (paths : list string) :
  first_file isfile paths <> LookupCrashed.
Proof.
  induction paths as [|path rest IH]; cbn [first_file]; [discriminate|].
  destruct (isfile path); [discriminate | exact IH].
Qed.

(** X9.  The path [find_ffmpeg_path] returns is what the lookup on the
    search path printed, stripped, whenever that is not empty, and no check
    that it is a file is made on it.  Only when the lookup fails or prints
    nothing is it the first of the usual installation paths that is a file,
    in the order listed.  The script exits exactly when the lookup gave
    nothing and none of these paths is a file. *)
Theorem ffmpeg_lookup_order (system : string) (windows_paths : list string)
    (lookup : tool_run) (isfile : string -> bool) :
  let nothing_printed :=
    lookup = ExitedNonZero
    \/ exists stdout, lookup = Printed stdout /\ Py.strip stdout = EmptyString in
  match find_ffmpeg_path system windows_paths lookup isfile with
  | FoundAt p =>
      (exists stdout, lookup = Printed stdout /\ p = Py.strip stdout /\ p <> EmptyString)
      \/ (nothing_printed
          /\ exists before after,
               common_paths system windows_paths = (before ++ p :: after)%list
               /\ isfile p = true
               /\ forall q, In q before -> isfile q = false)
  | NotFound =>
      nothing_printed
      /\ forall q, In q (common_paths system windows_paths) -> isfile q = false
  | LookupCrashed => lookup = CannotStart
  end.
Proof.
  intros nothing_printed. unfold find_ffmpeg_path.
  assert (Hfirst : nothing_printed ->
    match first_file isfile (common_paths system windows_paths) with
    | FoundAt p =>
        (exists stdout, lookup = Printed stdout /\ p = Py.strip stdout /\ p <> EmptyString)
        \/ (nothing_printed
            /\ exists before after,
                 common_paths system windows_paths = (before ++ p :: after)%list
                 /\ isfile p = true
                 /\ forall q, In q before -> isfile q = false)
    | NotFound =>
        nothing_printed
        /\ forall q, In q (common_paths system windows_paths) -> isfile q = false
    | LookupCrashed => lookup = CannotStart
    end).
  { intros Hn.
    destruct (first_file isfile (common_paths system windows_paths)) as [p| |] eqn:E.
    - right. split; [exact Hn | exact (first_file_found _ _ _ E)].
    - split; [exact Hn | exact (first_file_not_found _ _ E)].
    - exfalso. exact (first_file_never_crashes _ _ E). }
  destruct lookup as [| |stdout].
  - reflexivity.
  - apply Hfirst. left. reflexivity.
  - destruct (Py.strip stdout) as [|c r] eqn:S.
    + apply Hfirst. right. exists stdout. split; [reflexivity | exact S].
    + left. exists stdout. rewrite S. repeat split. discriminate.
Qed.

Lemma prefix_append (p s : string) :
  String.prefix p s = true <-> exists rest, s = p ++ rest.
Proof.
  revert s. induction p as [|c p IH]; intros s.
  - split; [intros _; exists s; reflexivity | intros _; destruct s; reflexivity].
  - destruct s as [|d s]; cbn [String.prefix].
    + split; [discriminate | intros [rest H]; discriminate].
    + destruct (Ascii.eqb_spec c d) as [->|Hne].
      * destruct (ascii_dec d d) as [_|Hdd]; [|congruence].
        rewrite IH. split; intros [rest H]; exists rest.
        -- rewrite H; reflexivity.
        -- simpl in H. inversion H. reflexivity.
      * destruct (ascii_dec c d) as [Hcd|_]; [congruence|].
        split; [discriminate|]. intros [rest H]. simpl in H. inversion H. congruence.
Qed.

Lemma occurs_append (needle hay : string) :
  PyText.occurs needle hay = true <-> exists a b, hay = a ++ needle ++ b.
Proof.
  induction hay as [|c hay IH]; cbn [PyText.occurs].
  - rewrite orb_false_r, prefix_append. split.
    + intros [rest H]. exists EmptyString, rest. exact H.
    + intros [a [b H]]. destruct a; [exists b; exact H | discriminate].
  - rewrite orb_true_iff, prefix_append, IH. split.
    + intros [[rest H]|[a [b H]]].
      * exists EmptyString, rest. exact H.
      * exists (String c a), b. rewrite H. reflexivity.
    + intros [a [b H]]. destruct a as [|d a].
      * left. exists b. exact H.
      * right. exists a, b. simpl in H. inversion H. reflexivity.
Qed.

(** X10.  Hardware acceleration is reported as supported exactly when the
    encoder's codec listing succeeds and the text [hwaccel] occurs somewhere
    in it; a listing that exits with an error reports it as unsupported. *)
Theorem gpu_detected_by_substring (codecs : tool_run) :
  (check_gpu_acceleration codecs = Some true
   <-> exists a b, codecs = Printed (a ++ "hwaccel" ++ b))
  /\ check_gpu_acceleration ExitedNonZero = Some false
  /\ (check_gpu_acceleration codecs = None <-> codecs = CannotStart).
Proof.
  split; [|split].
  - destruct codecs as [| |output]; cbn [check_gpu_acceleration].
    + split; [discriminate | intros [a [b H]]; discriminate].
    + split; [discriminate | intros [a [b H]]; discriminate].
    + split.
      * intros H. injection H as Ho. apply occurs_append in Ho.
        destruct Ho as [a [b Ho]]. exists a, b. f_equal. exact Ho.
      * intros [a [b H]]. injection H as Ho. f_equal.
        apply occurs_append. exists a, b. exact Ho.
  - reflexivity.
  - destruct codecs; cbn [check_gpu_acceleration]; split; congruence.
Qed.

(** ** The command line *)

Lemma floor_half (n : Z) : Qfloor (inject_Z n / 2) = n / 2.
Proof.
  change (2%Q) with (inject_Z 2). symmetry. apply Zdiv_Qdiv.
Qed.

(** X11.  The number of threads given to the AV1 encoder is half the number
    of processors, rounded down, kept between 4 and 8: it is 4 for up to nine
    processors and 8 from sixteen on. *)
Theorem cores_between_four_and_eight (cpu_count : Z) :
  4 <= cores cpu_count <= 8
  /\ (cpu_count <= 9 -> cores cpu_count = 4)
  /\ (8 <= cpu_count <= 17 -> cores cpu_count = cpu_count / 2)
  /\ (16 <= cpu_count -> cores cpu_count = 8).
Proof.
  unfold cores. rewrite floor_half.
  pose proof (Z.div_mod cpu_count 2 ltac:(lia)) as Hd.
  pose proof (Z.mod_pos_bound cpu_count 2 ltac:(lia)) as Hm.
  repeat split; intros; lia.
Qed.

(** X12.  The argument list of the encoder: it cannot be built exactly when
    the AV1 encoder is chosen and the number of processors is unknown (the
    division of line 196 then raises before the [try] of line 202, so the
    error leaves [encode_video]).  When it is built it starts with the
    program, [-y], [-i] and the input file, carries the encoder, quality,
    preset and keyframe interval at fixed places, and ends with the output
    file; [-hwaccel auto] comes after the input, in places 20 and 21, and
    [-svtav1-params] with its value comes just before the output file. *)
Theorem command_line_shape (ffmpeg_path input_file output_file encoding_command : string)
    (crf : Z) (preset : string) (keyframe_interval : Z) (gpu_acceleration : bool)
    (max_bitrate cpu_count : option Z) :
  let cmd := ffmpeg_cmd ffmpeg_path input_file output_file encoding_command crf preset
               keyframe_interval gpu_acceleration max_bitrate cpu_count in
  (cmd = None <-> encoding_command = "libsvtav1" /\ cpu_count = None)
  /\ forall args, cmd = Some args ->
       firstn 4 args = [ffmpeg_path; "-y"; "-i"; input_file]
       /\ nth 9 args EmptyString = encoding_command
       /\ nth 11 args EmptyString = Py.str_int crf
       /\ nth 13 args EmptyString = preset
       /\ nth 15 args EmptyString = Py.str_int keyframe_interval
       /\ last args EmptyString = output_file
       /\ List.length args
          = (21 + (if gpu_acceleration then 2 else 0)
             + (if String.eqb encoding_command "libsvtav1" then 2 else 0))%nat
       /\ (gpu_acceleration = true ->
           nth 20 args EmptyString = "-hwaccel" /\ nth 21 args EmptyString = "auto")
       /\ (encoding_command = "libsvtav1" ->
           exists n, cpu_count = Some n
             /\ nth (List.length args - 3) args EmptyString = "-svtav1-params"
             /\ nth (List.length args - 2) args EmptyString = svtav1_params n max_bitrate).
Proof.
  intros cmd. subst cmd. unfold ffmpeg_cmd. split.
  - destruct (String.eqb_spec encoding_command "libsvtav1") as [E|E].
    + destruct cpu_count as [n|].
      * split; [discriminate | intros [_ H]; discriminate].
      * split; [intros _; split; [exact E | reflexivity] | reflexivity].
    + split; [discriminate | intros [H _]; congruence].
  - intros args.
    destruct (String.eqb_spec encoding_command "libsvtav1") as [E|E].
    + destruct cpu_count as [n|]; [|discriminate].
      destruct gpu_acceleration; intros H; injection H as H; subst args;
        cbn [app firstn nth last List.length Nat.add Nat.sub];
        (repeat split; try reflexivity; try discriminate;
         intros _; exists n; repeat split).
    + destruct gpu_acceleration; intros H; injection H as H; subst args;
        cbn [app firstn nth last List.length Nat.add Nat.sub];
        (repeat split; try reflexivity; try discriminate; try congruence).
Qed.

(** ** Paths *)

Lemma append_assoc (a b c : string) : (a ++ b) ++ c = a ++ (b ++ c).
Proof. induction a as [|x a IH]; simpl; [reflexivity | rewrite IH; reflexivity]. Qed.

Lemma append_empty_r (a : string) : a ++ EmptyString = a.
Proof. induction a as [|x a IH]; simpl; [reflexivity | rewrite IH; reflexivity]. Qed.


Lemma contains_append (c : ascii) (a b : string) :
  Py.contains c (a ++ b) = Py.contains c a || Py.contains c b.
Proof.
  induction a as [|x a IH]; simpl; [reflexivity|].
  rewrite IH. apply orb_assoc.
Qed.

Lemma split_append_sep (sep : ascii) (x b : string) :
  Py.split sep (x ++ String sep b) = (Py.split sep x ++ Py.split sep b)%list.
Proof.
  induction x as [|c x IH]; cbn [append Py.split].
  - rewrite Ascii.eqb_refl. reflexivity.
  - rewrite IH. destruct (Ascii.eqb c sep); [reflexivity|].
    destruct (Py.split sep x) as [|hd tl] eqn:E; [|reflexivity].
    exfalso. exact (split_nonempty sep x E).
Qed.

Lemma split_no_sep (sep : ascii) (s : string) :
  Py.contains sep s = false -> Py.split sep s = [s].
Proof.
  induction s as [|c s IH]; cbn [Py.contains Py.split]; [reflexivity|].
  intros H. apply orb_false_elim in H. destruct H as [Hc Hs].
  rewrite Ascii.eqb_sym, Hc, (IH Hs). reflexivity.
Qed.

Lemma split_parts_no_sep (sep : ascii) (s : string) :
  Forall (fun part => Py.contains sep part = false) (Py.split sep s).
Proof.
  induction s as [|c s IH]; cbn [Py.split].
  - constructor; [reflexivity | constructor].
  - destruct (Ascii.eqb c sep) eqn:E.
    + constructor; [reflexivity | exact IH].
    + destruct (Py.split sep s) as [|hd tl]; [repeat constructor; simpl|].
      * rewrite Ascii.eqb_sym, E. reflexivity.
      * inversion IH; subst. constructor; [|assumption].
        simpl. rewrite Ascii.eqb_sym, E. assumption.
Qed.

Lemma last_filter_in {A : Type} (f : A -> bool) (l : list A) (d : A) :
  last (filter f l) d = d \/ In (last (filter f l) d) l.
Proof.
  destruct (filter f l) as [|x r] eqn:E; [left; reflexivity|].
  right.
  assert (Hin : In (last (x :: r) d) (filter f l)).
  { rewrite E. clear E. revert x. induction r as [|y r IH]; intros x.
    - left. reflexivity.
    - right. apply (IH y). }
  apply filter_In in Hin. tauto.
Qed.

(** The final component of a path holds no separator. *)
Lemma name_no_sep (p : string) : Py.contains "/" (PosixPath.name p) = false.
Proof.
  unfold PosixPath.name.
  destruct (last_filter_in
              (fun x => negb (String.eqb x EmptyString || String.eqb x "."))
              (Py.split "/" p) EmptyString) as [H|H].
  - rewrite H. reflexivity.
  - pose proof (split_parts_no_sep "/" p) as Hall.
    rewrite Forall_forall in Hall. exact (Hall _ H).
Qed.

Lemma rpartition_none (c : ascii) (s : string) :
  Py.contains c s = false -> PosixPath.rpartition c s = None.
Proof.
  induction s as [|d s IH]; cbn [Py.contains PosixPath.rpartition]; [reflexivity|].
  intros H. apply orb_false_elim in H. destruct H as [Hc Hs].
  rewrite (IH Hs), Ascii.eqb_sym, Hc. reflexivity.
Qed.

Lemma rpartition_some (c : ascii) (s before after : string) :
  PosixPath.rpartition c s = Some (before, after) ->
  s = before ++ String c after /\ Py.contains c after = false.
Proof.
  revert before. induction s as [|d s IH]; intros before;
    cbn [PosixPath.rpartition]; [discriminate|].
  destruct (PosixPath.rpartition c s) as [[b a]|] eqn:E.
  - intros H; inversion H; subst. destruct (IH b eq_refl) as [Hs Ha].
    split; [simpl; rewrite <- Hs; reflexivity | exact Ha].
  - destruct (Ascii.eqb_spec d c) as [->|Hne]; [|discriminate].
    intros H; inversion H; subst. split; [reflexivity|].
    clear IH H. induction after as [|x r IHr]; [reflexivity|].
    cbn [PosixPath.rpartition] in E. cbn [Py.contains].
    destruct (PosixPath.rpartition c r) as [[b a]|]; [discriminate|].
    destruct (Ascii.eqb_spec x c) as [->|Hx]; [discriminate|].
    rewrite (IHr eq_refl), orb_false_r.
    apply Ascii.eqb_neq. congruence.
Qed.

Lemma rpartition_append (c : ascii) (a b : string) :
  Py.contains c b = false ->
  PosixPath.rpartition c (a ++ String c b) = Some (a, b).
Proof.
  intros Hb. induction a as [|d a IH]; cbn [append PosixPath.rpartition].
  - rewrite (rpartition_none c b Hb), Ascii.eqb_refl. reflexivity.
  - rewrite IH. reflexivity.
Qed.

(** The stem of a component is an initial part of it. *)
Lemma stem_of_name_prefix (n : string) :
  exists rest, n = PosixPath.stem_of_name n ++ rest.
Proof.
  unfold PosixPath.stem_of_name.
  destruct (PosixPath.rpartition "." n) as [[before after]|] eqn:E.
  - destruct (rpartition_some _ _ _ _ E) as [Hn _].
    destruct before as [|c before]; [exists EmptyString; rewrite append_empty_r; reflexivity|].
    destruct after as [|d after]; [exists EmptyString; rewrite append_empty_r; reflexivity|].
    exists (String "." (String d after)). exact Hn.
  - exists EmptyString. rewrite append_empty_r. reflexivity.
Qed.

Lemma stem_no_sep (p : string) : Py.contains "/" (PosixPath.stem p) = false.
Proof.
  unfold PosixPath.stem.
  destruct (stem_of_name_prefix (PosixPath.name p)) as [rest H].
  pose proof (name_no_sep p) as Hn. rewrite H, contains_append in Hn.
  apply orb_false_elim in Hn. tauto.
Qed.

Lemma ends_with_sep_append (a : string) :
  PosixPath.ends_with_sep a = true -> exists x, a = x ++ "/".
Proof.
  induction a as [|c a IH]; cbn [PosixPath.ends_with_sep]; [discriminate|].
  destruct a as [|d a].
  - intros H. apply Ascii.eqb_eq in H. subst. exists EmptyString. reflexivity.
  - intros H. destruct (IH H) as [x Hx]. exists (String c x). rewrite Hx. reflexivity.
Qed.

Lemma startswith_sep_contains (s : string) :
  Py.contains "/" s = false -> Py.startswith "/" s = false.
Proof.
  destruct s as [|c s]; [reflexivity|].
  cbn [Py.contains]. intros H. apply orb_false_elim in H. destruct H as [Hc _].
  unfold Py.startswith. cbn [String.prefix].
  destruct (ascii_dec "/" c) as [E|E]; [|reflexivity].
  subst c. discriminate.
Qed.

Lemma name_component (b : string) :
  Py.contains "/" b = false -> b <> EmptyString -> b <> "." ->
  PosixPath.name b = b
  /\ forall x, PosixPath.name (x ++ String "/" b) = b.
Proof.
  intros Hsep He Hd.
  assert (Hkeep : negb (String.eqb b EmptyString || String.eqb b ".") = true).
  { destruct (String.eqb_spec b EmptyString); [congruence|].
    destruct (String.eqb_spec b "."); [congruence | reflexivity]. }
  unfold PosixPath.name. split.
  - rewrite (split_no_sep _ _ Hsep). cbn [filter]. rewrite Hkeep. reflexivity.
  - intros x. rewrite split_append_sep, (split_no_sep _ _ Hsep), filter_app.
    cbn [filter]. rewrite Hkeep. apply last_last.
Qed.

(** The final component of a joined path is the name joined, when that is a
    single component. *)
Lemma name_join (a b : string) :
  Py.contains "/" b = false -> b <> EmptyString -> b <> "." ->
  PosixPath.name (PosixPath.join a b) = b.
Proof.
  intros Hsep He Hd.
  destruct (name_component b Hsep He Hd) as [Hb Hx].
  unfold PosixPath.join. rewrite (startswith_sep_contains b Hsep).
  destruct a as [|c a]; [exact Hb|].
  destruct (PosixPath.ends_with_sep (String c a)) eqn:E.
  - destruct (ends_with_sep_append _ E) as [x Hxa]. rewrite Hxa, append_assoc.
    apply Hx.
  - apply Hx.
Qed.

Lemma stem_of_name_suffixed (s : string) :
  PosixPath.stem_of_name (s ++ " encoded av1.mkv") = s ++ " encoded av1".
Proof.
  unfold PosixPath.stem_of_name.
  replace (s ++ " encoded av1.mkv") with ((s ++ " encoded av1") ++ String "." "mkv")
    by (rewrite append_assoc; reflexivity).
  rewrite rpartition_append by reflexivity.
  destruct s; reflexivity.
Qed.

(** X13.  Whatever the folder and the video name, the output file is the
    video's stem followed by [ encoded av1.mkv] inside the output folder, and
    the log file computed from it is the same stem followed by
    [ encoded av1.log] in the same folder: taking the stem of the output
    file gives back what was put before [.mkv], also when the video's own
    name holds dots or has no extension. *)
Theorem log_named_after_output (output_path video_name : string) :
  let output_file := output_file_of output_path video_name in
  PosixPath.name output_file = PosixPath.stem video_name ++ " encoded av1.mkv"
  /\ PosixPath.stem output_file = PosixPath.stem video_name ++ " encoded av1"
  /\ log_file_path output_path output_file
     = PosixPath.join output_path (PosixPath.stem video_name ++ " encoded av1.log")
  /\ (output_path <> EmptyString -> PosixPath.ends_with_sep output_path = false ->
      output_file
      = output_path ++ "/" ++ PosixPath.stem video_name ++ " encoded av1.mkv"
      /\ log_file_path output_path output_file
         = output_path ++ "/" ++ PosixPath.stem video_name ++ " encoded av1.log").
Proof.
  intros output_file. subst output_file. unfold output_file_of, log_file_path.
  set (s := PosixPath.stem video_name).
  assert (Hs : Py.contains "/" s = false) by apply stem_no_sep.
  assert (Hname : PosixPath.name (PosixPath.join output_path (s ++ " encoded av1.mkv"))
                  = s ++ " encoded av1.mkv").
  { apply name_join.
    - rewrite contains_append, Hs. reflexivity.
    - destruct s; discriminate.
    - destruct s as [|c [|d r]]; discriminate. }
  assert (Hstem : PosixPath.stem (PosixPath.join output_path (s ++ " encoded av1.mkv"))
                  = s ++ " encoded av1").
  { unfold PosixPath.stem. rewrite Hname. apply stem_of_name_suffixed. }
  assert (Hlog : (s ++ " encoded av1") ++ ".log" = s ++ " encoded av1.log")
    by (rewrite append_assoc; reflexivity).
  split; [exact Hname|]. split; [exact Hstem|]. rewrite Hstem, Hlog.
  split; [reflexivity|].
  intros Hne Hend. unfold PosixPath.join.
  rewrite !startswith_sep_contains
    by (rewrite contains_append, Hs; reflexivity).
  destruct output_path as [|c r]; [congruence|].
  rewrite Hend. split; reflexivity.
Qed.

(** ** The recycle bin *)

(** [splitext] cuts the name in two parts that give it back; the extension
    is empty, or a dot followed by text without dot or separator. *)
Lemma splitext_parts (p base ext : string) :
  PosixPath.splitext p = (base, ext) ->
  base ++ ext = p
  /\ (ext = EmptyString
      \/ exists e, ext = String "." e
                   /\ Py.contains "." e = false /\ Py.contains "/" e = false).
Proof.
  unfold PosixPath.splitext.
  destruct (PosixPath.rpartition "/" p) as [[before after]|] eqn:Ep.
  - destruct (rpartition_some _ _ _ _ Ep) as [Hp Hafter].
    destruct (PosixPath.rpartition "." after) as [[b a]|] eqn:Et.
    + destruct (rpartition_some _ _ _ _ Et) as [Ht Ha].
      destruct (all_chars (Ascii.eqb ".") b).
      * intros H; inversion H; subst base ext.
        split; [apply append_empty_r | left; reflexivity].
      * intros H; inversion H; subst base ext. split.
        -- rewrite Hp, Ht, !append_assoc. reflexivity.
        -- right. exists a. split; [reflexivity|]. split; [exact Ha|].
           rewrite Ht, contains_append in Hafter.
           apply orb_false_elim in Hafter. destruct Hafter as [_ Hafter].
           cbn [Py.contains] in Hafter. apply orb_false_elim in Hafter. tauto.
    + intros H; inversion H; subst base ext.
      split; [apply append_empty_r | left; reflexivity].
  - pose proof I as Hp.
    destruct (PosixPath.rpartition "." p) as [[b a]|] eqn:Et.
    + destruct (rpartition_some _ _ _ _ Et) as [Ht Ha].
      destruct (all_chars (Ascii.eqb ".") b).
      * intros H; inversion H; subst base ext.
        split; [apply append_empty_r | left; reflexivity].
      * intros H; inversion H; subst base ext. split.
        -- rewrite Ht. reflexivity.
        -- right. exists a. split; [reflexivity|]. split; [exact Ha|].
           assert (Hnone : Py.contains "/" p = false).
           { clear -Ep. induction p as [|c p IH]; [reflexivity|].
             cbn [PosixPath.rpartition] in Ep. cbn [Py.contains].
             destruct (PosixPath.rpartition "/" p) as [[x y]|]; [discriminate|].
             destruct (Ascii.eqb_spec c "/") as [->|Hc]; [discriminate|].
             rewrite (IH eq_refl), orb_false_r. apply Ascii.eqb_neq. congruence. }
           rewrite Ht, contains_append in Hnone.
           apply orb_false_elim in Hnone. destruct Hnone as [_ Hnone].
           cbn [Py.contains] in Hnone. apply orb_false_elim in Hnone. tauto.
    + intros H; inversion H; subst base ext.
      split; [apply append_empty_r | left; reflexivity].
Qed.

Lemma startswith_sep_append (a b : string) :
  a <> EmptyString -> Py.startswith "/" (a ++ b) = Py.startswith "/" a.
Proof.
  destruct a as [|c a]; [congruence|]. intros _.
  unfold Py.startswith. cbn [append String.prefix].
  destruct (ascii_dec "/" c); destruct (a ++ b); destruct a; reflexivity.
Qed.

(** The name with [_old] put before the extension is absolute exactly when
    the name is. *)
Lemma startswith_sep_old (video_name base ext : string) :
  PosixPath.splitext video_name = (base, ext) ->
  Py.startswith "/" (base ++ "_old" ++ ext) = Py.startswith "/" video_name.
Proof.
  intros H. destruct (splitext_parts _ _ _ H) as [Hcat Hext].
  destruct base as [|c base].
  - simpl in Hcat. subst video_name.
    destruct Hext as [->|[e [-> _]]]; reflexivity.
  - rewrite <- Hcat, !startswith_sep_append by discriminate. reflexivity.
Qed.





Lemma join_absolute (a b : string) :
  Py.startswith "/" b = true -> PosixPath.join a b = b.
Proof. unfold PosixPath.join. intros ->. reflexivity. Qed.

(** X15.  A video entered by an absolute path never reaches the recycle
    folder.  Joining the folder with an absolute name gives the name itself,
    so the destination first tried is the original, which exists; the
    original is then renamed beside itself, with [_old] before its
    extension, whatever the recycle folder is. *)
Theorem recycle_absolute_name_stays (recycle_bin_dir video_name : string)
    (exists_ : string -> bool) :
  Py.startswith "/" video_name = true ->
  exists_ video_name = true ->
  recycle_destination recycle_bin_dir video_name exists_
  = fst (PosixPath.splitext video_name) ++ "_old" ++ snd (PosixPath.splitext video_name)
  /\ Py.startswith "/" (recycle_destination recycle_bin_dir video_name exists_) = true
  /\ forall other_dir,
       recycle_destination other_dir video_name exists_
       = recycle_destination recycle_bin_dir video_name exists_.
Proof.
  intros Habs Hex.
  assert (Hdest : forall dir,
            recycle_destination dir video_name exists_
            = fst (PosixPath.splitext video_name) ++ "_old"
              ++ snd (PosixPath.splitext video_name)).
  { intros dir. unfold recycle_destination.
    rewrite (join_absolute dir video_name Habs), Hex.
    destruct (PosixPath.splitext video_name) as [base ext] eqn:E. cbn [fst snd].
    apply join_absolute. rewrite (startswith_sep_old _ _ _ E). exact Habs. }
  split; [apply Hdest|]. split.
  - rewrite Hdest.
    destruct (PosixPath.splitext video_name) as [base ext] eqn:E. cbn [fst snd].
    rewrite (startswith_sep_old _ _ _ E). exact Habs.
  - intros other_dir. rewrite !Hdest. reflexivity.
Qed.

Lemma recycle_absolute_name_stays_witness :
  recycle_destination trash_dir "/videos/clip.mp4" (String.eqb "/videos/clip.mp4")
  = "/videos/clip_old.mp4".
Proof.
  destruct (recycle_absolute_name_stays trash_dir "/videos/clip.mp4"
              (String.eqb "/videos/clip.mp4") eq_refl eq_refl) as [H _].
  exact H.
Defined.

(** ** The prober *)

Lemma all_chars_weaken (f g : ascii -> bool) (s : string) :
  (forall c, f c = true -> g c = true) ->
  all_chars f s = true -> all_chars g s = true.
Proof.
  intros Hfg. induction s as [|c s IH]; cbn [all_chars]; [reflexivity|].
  intros H. apply andb_prop in H. destruct H as [Hc Hs].
  rewrite (Hfg c Hc), (IH Hs). reflexivity.
Qed.

Lemma all_chars_not_contains (f : ascii -> bool) (sep : ascii) (s : string) :
  f sep = false -> all_chars f s = true -> Py.contains sep s = false.
Proof.
  intros Hsep. induction s as [|c s IH]; cbn [all_chars Py.contains]; [reflexivity|].
  intros H. apply andb_prop in H. destruct H as [Hc Hs].
  rewrite (IH Hs), orb_false_r.
  destruct (Ascii.eqb_spec sep c) as [->|_]; [congruence | reflexivity].
Qed.

Lemma str_int_numeral_chars (n : Z) : all_chars numeral_char (Py.str_int n) = true.
Proof.
  assert (Hpos : forall m, 0 <= m -> all_chars numeral_char (Py.str_int m) = true).
  { intros m Hm. apply (all_chars_weaken Py.isdigit).
    - intros c Hc. unfold numeral_char. rewrite Hc. reflexivity.
    - apply str_int_digits. exact Hm. }
  destruct n as [|p|p].
  - reflexivity.
  - apply Hpos. lia.
  - rewrite str_int_neg. cbn [all_chars]. rewrite (Hpos (Z.pos p)) by lia. reflexivity.
Qed.

Lemma str_int_no_slash (n : Z) : Py.contains "/" (Py.str_int n) = false.
Proof.
  apply (all_chars_not_contains numeral_char); [reflexivity|].
  apply str_int_numeral_chars.
Qed.

(** X16.  A frame rate printed as a fraction of two integers is read back
    as their quotient, and as a failure when the denominator is zero. *)
Theorem parse_fps_fraction (num den : Z) :
  parse_fps (Py.str_int num ++ "/" ++ Py.str_int den)
  = if den =? 0 then None else Some (inject_Z num / inject_Z den)%Q.
Proof.
  unfold parse_fps.
  assert (Hc : Py.contains "/" (Py.str_int num ++ "/" ++ Py.str_int den) = true).
  { rewrite contains_append. cbn [append Py.contains].
    rewrite Ascii.eqb_refl, orb_true_r. reflexivity. }
  rewrite Hc.
  change (Py.str_int num ++ "/" ++ Py.str_int den)
    with (Py.str_int num ++ String "/" (Py.str_int den)).
  rewrite split_append_sep, !split_no_sep by apply str_int_no_slash.
  cbn [app map]. rewrite !int_of_str_str_int. reflexivity.
Qed.




(** ** The progress loop *)

(** A rendered status is computed from a sample of the stripped line and
    the probe's total and frame rate. *)
Lemma observe_status (st : TrackerState) (raw : string) (r : RenderedStatus) :
  observe st raw = RenderStatus r ->
  exists s current_frame total_frames video_fps,
    extract (Py.strip raw) = Return s
    /\ known_total_frames (video_info st) = Some total_frames
    /\ r = status_of st s current_frame total_frames video_fps.
Proof.
  unfold observe.
  destruct (Py.strip raw) as [|c l] eqn:E; [discriminate|].
  destruct (Py.startswith "frame=" (String c l)); [|discriminate].
  destruct (extract (String c l)) as [s|t] eqn:He; [|discriminate].
  unfold present.
  destruct (frame_match s) as [group|]; [|discriminate].
  destruct (known_total_frames (video_info st)) as [total|]; [|discriminate].
  destruct (known_video_fps (video_info st)) as [x|]; [|discriminate].
  destruct (Qlt_le_dec 0 (encoding_speed s)); [|discriminate].
  destruct (Py.int_of_str group) as [current|]; [|discriminate].
  intros H. injection H as <-.
  exists s, current, total, x. repeat split.
Qed.

(** X18.  A status line is rendered only on a line that starts with
    [frame=] after stripping, whose frame number is found and read as an
    integer, when the probe gave a non-zero total and a non-zero frame rate
    and the speed read is positive; the status is then the one computed from
    these values.  In every other case the loop prints the line, ignores it,
    or stops. *)
Theorem status_only_when_known (st : TrackerState) (raw : string) (r : RenderedStatus) :
  observe st raw = RenderStatus r ->
  exists s group total_frames video_fps,
    Py.startswith "frame=" (Py.strip raw) = true
    /\ extract (Py.strip raw) = Return s
    /\ frame_match s = Some group
    /\ Py.int_of_str group = Some (r_current_frame r)
    /\ known_total_frames (video_info st) = Some total_frames
    /\ known_video_fps (video_info st) = Some video_fps
    /\ (0 < encoding_speed s)%Q
    /\ r = status_of st s (r_current_frame r) total_frames video_fps.
Proof.
  unfold observe.
  destruct (Py.strip raw) as [|c l] eqn:E; [discriminate|].
  destruct (Py.startswith "frame=" (String c l)) eqn:Hp; [|discriminate].
  destruct (extract (String c l)) as [s|t] eqn:He; [|discriminate].
  unfold present.
  destruct (frame_match s) as [group|] eqn:Hg; [|discriminate].
  destruct (known_total_frames (video_info st)) as [total|] eqn:Ht; [|discriminate].
  destruct (known_video_fps (video_info st)) as [x|] eqn:Hx; [|discriminate].
  destruct (Qlt_le_dec 0 (encoding_speed s)) as [Hs|Hs]; [|discriminate].
  destruct (Py.int_of_str group) as [current|] eqn:Hi; [|discriminate].
  intros H. injection H as <-.
  exists s, group, total, x. cbn [r_current_frame status_of].
  repeat split; auto.
Qed.

Lemma status_only_when_known_witness :
  observe clip_state bare_line
  = RenderStatus (status_of clip_state bare_sample 50 100 (25 # 1))
  /\ exists s group total_frames video_fps,
       Py.startswith "frame=" (Py.strip bare_line) = true
       /\ extract (Py.strip bare_line) = Return s
       /\ frame_match s = Some group
       /\ Py.int_of_str group = Some 50
       /\ known_total_frames (video_info clip_state) = Some total_frames
       /\ known_video_fps (video_info clip_state) = Some video_fps
       /\ (0 < encoding_speed s)%Q
       /\ status_of clip_state bare_sample 50 100 (25 # 1)
          = status_of clip_state s 50 total_frames video_fps.
Proof.
  split; [vm_compute; reflexivity|].
  apply (status_only_when_known clip_state bare_line
           (status_of clip_state bare_sample 50 100 (25 # 1))).
  vm_compute. reflexivity.
Defined.

Lemma progress_loop_step (info : MediaInfo) (entry : string * option Z)
    (rest : list (string * option Z)) :
  progress_loop info (entry :: rest)
  = match iteration info entry with
    | Failed text => ([Failed text], false)
    | a => (a :: fst (progress_loop info rest), snd (progress_loop info rest))
    end.
Proof.
  destruct entry as [raw size]. cbn [progress_loop]. unfold iteration. cbn [fst snd].
  destruct (observe {| video_info := info; output_size := size |} raw);
    try reflexivity;
    destruct (progress_loop info rest); reflexivity.
Qed.

(** X19.  The loop handles the lines in order, one action per line.  It
    reaches the end of the stream exactly when no line raises; otherwise it
    stops at the first line that does, and nothing after that line is read
    or shown. *)
Theorem progress_loop_stops_at_failure (info : MediaInfo)
    (stream : list (string * option Z)) :
  let acts := fst (progress_loop info stream) in
  if snd (progress_loop info stream) then
    acts = map (iteration info) stream /\ Forall completes acts
  else
    exists before failing after text,
      stream = (before ++ failing :: after)%list
      /\ iteration info failing = Failed text
      /\ Forall completes (map (iteration info) before)
      /\ acts = (map (iteration info) before ++ [Failed text])%list.
Proof.
  induction stream as [|entry rest IH]; [split; [reflexivity | constructor]|].
  cbn zeta in *. rewrite progress_loop_step.
  destruct (iteration info entry) as [|l|l|r|t] eqn:E; cbn [fst snd];
    try (destruct (snd (progress_loop info rest));
         [ destruct IH as [Hacts Hall]; split;
           [ cbn [map]; rewrite E, <- Hacts; reflexivity
           | constructor; [intros text; discriminate | exact Hall] ]
         | destruct IH as [before [failing [after [text [Hs [Hf [Hall Hacts]]]]]]];
           exists (entry :: before), failing, after, text;
           split; [rewrite Hs; reflexivity|];
           split; [exact Hf|];
           split; [cbn [map]; rewrite E; constructor;
                   [intros text'; discriminate | exact Hall]|];
           cbn [map app]; rewrite E, Hacts; reflexivity ]).
  exists [], entry, rest, t. repeat split; [exact E | constructor].
Qed.




(** ** Exit handling *)

Lemma calculate_size_reduction_nonempty (original_size encoded_size : Z) (text : string) :
  calculate_size_reduction original_size encoded_size = Some text ->
  original_size <> 0 /\ String.eqb text EmptyString = false.
Proof.
  unfold calculate_size_reduction.
  destruct (Z.eqb_spec original_size 0) as [E|E]; [discriminate|].
  intros H. injection H as <-. split; [exact E | reflexivity].
Qed.

(** X21.  A log is written exactly when the input is a file that is not
    empty, the encoder was started, every line of its output was handled
    without an exception, it exited with code 0 and the output file exists;
    the log is then the text of [calculate_size_reduction] on the two
    sizes. *)
Theorem log_written_iff (run : EncoderRun) (text : string) :
  encode_and_log run = Some text
  <-> exists original_size encoded_size stream acts,
        input_size run = Some original_size
        /\ original_size <> 0
        /\ process run = Exited stream 0
        /\ progress_loop (get_video_info (probe run)) stream = (acts, true)
        /\ final_output_size run = Some encoded_size
        /\ calculate_size_reduction original_size encoded_size = Some text.
Proof.
  unfold encode_and_log, encode_video. split.
  - destruct (input_size run) as [original_size|]; [|discriminate].
    destruct (process run) as [|stream code]; [discriminate|].
    destruct (progress_loop (get_video_info (probe run)) stream) as [acts [|]] eqn:L;
      [|discriminate].
    unfold on_exit.
    destruct (Z.eqb_spec code 0) as [->|Hc]; cbn [negb]; [|discriminate].
    destruct (final_output_size run) as [encoded_size|]; [|discriminate].
    destruct (calculate_size_reduction original_size encoded_size) as [t|] eqn:C;
      [|discriminate].
    cbn [log]. destruct (String.eqb t EmptyString); [discriminate|].
    intros H. injection H as <-.
    exists original_size, encoded_size, stream, acts.
    destruct (calculate_size_reduction_nonempty _ _ _ C) as [Hnz _].
    repeat split; auto.
  - intros [original_size [encoded_size [stream [acts [Hi [Hnz [Hp [Hl [Hf Hc]]]]]]]]].
    rewrite Hi, Hp, Hl. unfold on_exit. cbn [Z.eqb negb]. rewrite Hf, Hc. cbn [log].
    destruct (calculate_size_reduction_nonempty _ _ _ Hc) as [_ Hne].
    rewrite Hne. reflexivity.
Qed.






(** ** The display *)

(** [int] on floats is monotone. *)
Lemma int_of_float_le (x y : Q) : (x <= y)%Q -> Py.int_of_float x <= Py.int_of_float y.
Proof.
  assert (Hnn : forall a c : Z, forall b d : positive,
            0 <= a -> a * Z.pos d <= c * Z.pos b -> a / Z.pos b <= c / Z.pos d).
  { intros a c b d Ha H.
    rewrite <- (Z.div_mul_cancel_r a (Z.pos b) (Z.pos d)) by lia.
    rewrite <- (Z.div_mul_cancel_r c (Z.pos d) (Z.pos b)) by lia.
    rewrite (Z.mul_comm (Z.pos d) (Z.pos b)).
    apply Z.div_le_mono; lia. }
  destruct x as [a b], y as [c d]. unfold Qle, Py.int_of_float. cbn [Qnum Qden].
  intros H.
  destruct (Z_le_gt_dec 0 a) as [Ha|Ha].
  - assert (Hc : 0 <= c) by nia.
    rewrite !Z.quot_div_nonneg by lia. apply Hnn; assumption.
  - destruct (Z_le_gt_dec 0 c) as [Hc|Hc].
    + apply Z.le_trans with (m := 0).
      * apply Z.quot_le_upper_bound; lia.
      * apply Z.quot_pos; lia.
    + replace a with (- - a) by lia. replace c with (- - c) by lia.
      rewrite !(Z.quot_opp_l (- _)) by lia.
      rewrite !Z.quot_div_nonneg by lia.
      apply Z.opp_le_mono. rewrite !Z.opp_involutive.
      apply Hnn; lia.
Qed.

(** X23.  The duration shown is the probed duration truncated to whole
    seconds and formatted exactly as the time remaining is; a missing
    duration reads as zero seconds.  For a duration that is not negative
    the truncation is the floor. *)
Theorem format_duration_truncates (seconds : Q) :
  format_duration (Some seconds) = format_time_remaining (Py.int_of_float seconds)
  /\ ((0 <= seconds)%Q ->
      format_duration (Some seconds) = format_time_remaining (Qfloor seconds))
  /\ format_duration None = format_time_remaining 0.
Proof.
  assert (H : format_duration (Some seconds)
              = format_time_remaining (Py.int_of_float seconds)).
  { unfold format_duration.
    destruct (Py.float_truthy seconds) eqn:E; [reflexivity|].
    unfold Py.float_truthy in E. apply negb_false_iff, Z.eqb_eq in E.
    unfold Py.int_of_float. rewrite E, Z.quot_0_l by lia. reflexivity. }
  split; [exact H|]. split; [|reflexivity].
  intros Hnn. rewrite H, (int_of_float_floor _ Hnn). reflexivity.
Qed.



(** X25.  With a positive frame rate and a positive speed the seconds
    remaining never grow as the frame number advances, are zero when it
    reaches the total, and never grow with the speed while the frame number
    does not exceed the total. *)
Theorem seconds_remaining_decreases (total_frames c1 c2 : Z) (video_fps s1 s2 : Q) :
  (0 < video_fps)%Q -> (0 < s1)%Q -> (s1 <= s2)%Q -> c1 <= c2 ->
  seconds_remaining total_frames c2 video_fps s1
  <= seconds_remaining total_frames c1 video_fps s1
  /\ seconds_remaining total_frames total_frames video_fps s1 = 0
  /\ (c1 <= total_frames ->
      seconds_remaining total_frames c1 video_fps s2
      <= seconds_remaining total_frames c1 video_fps s1).
Proof.
  intros Hf Hs1 Hs12 Hc.
  assert (Hs2 : (0 < s2)%Q) by (apply Qlt_le_trans with (y := s1); assumption).
  assert (Hd1 : (0 < video_fps * s1)%Q) by (apply Qmult_lt_0_compat; assumption).
  assert (Hd2 : (0 < video_fps * s2)%Q) by (apply Qmult_lt_0_compat; assumption).
  unfold seconds_remaining, remaining_frames. split; [|split].
  - apply int_of_float_le.
    apply Qle_shift_div_l; [exact Hd1|].
    unfold Qdiv. rewrite <- Qmult_assoc, (Qmult_comm (/ _)), Qmult_inv_r, Qmult_1_r.
    + rewrite <- Zle_Qle. lia.
    + intros E. rewrite E in Hd1. discriminate.
  - rewrite Z.sub_diag. unfold Py.int_of_float, Qdiv.
    destruct (/ (video_fps * s1))%Q. reflexivity.
  - intros Ht. apply int_of_float_le.
    assert (Hn : (0 <= inject_Z (total_frames - c1))%Q).
    { change (inject_Z 0 <= inject_Z (total_frames - c1))%Q. rewrite <- Zle_Qle. lia. }
    apply Qle_shift_div_l; [exact Hd1|].
    apply Qle_trans with
      (y := (inject_Z (total_frames - c1) / (video_fps * s2) * (video_fps * s2))%Q).
    + rewrite !(Qmult_comm (inject_Z (total_frames - c1) / (video_fps * s2))).
      apply Qmult_le_compat_r.
      * rewrite !(Qmult_comm video_fps). apply Qmult_le_compat_r;
          [exact Hs12 | apply Qlt_le_weak; exact Hf].
      * apply Qle_shift_div_l; [exact Hd2|]. rewrite Qmult_0_l. exact Hn.
    + unfold Qdiv. rewrite <- Qmult_assoc, (Qmult_comm (/ _)), Qmult_inv_r, Qmult_1_r.
      * apply Qle_refl.
      * intros E. rewrite E in Hd2. discriminate.
Qed.

Lemma seconds_remaining_decreases_witness :
  seconds_remaining 100 75 (25 # 1) 1 <= seconds_remaining 100 50 (25 # 1) 1
  /\ seconds_remaining 100 100 (25 # 1) 1 = 0
  /\ (50 <= 100 ->
      seconds_remaining 100 50 (25 # 1) 2 <= seconds_remaining 100 50 (25 # 1) 1).
Proof.
  apply (seconds_remaining_decreases 100 50 75 (25 # 1) 1 2);
    try reflexivity; discriminate.
Defined.



(** ** The status line *)

Lemma all_chars_append_true (f : ascii -> bool) (a b : string) :
  all_chars f a = true -> all_chars f b = true -> all_chars f (a ++ b) = true.
Proof. intros Ha Hb. rewrite all_chars_append, Ha, Hb. reflexivity. Qed.

Lemma all_chars_repeat_nat (f : ascii -> bool) (s : string) (n : nat) :
  all_chars f s = true -> all_chars f (Py.repeat_nat s n) = true.
Proof.
  intros Hs. induction n as [|n IH]; cbn [Py.repeat_nat]; [reflexivity|].
  apply all_chars_append_true; assumption.
Qed.

Lemma digit_line_char (c : ascii) : Py.isdigit c = true -> line_char c = true.
Proof. ascii_cases c; vm_compute; congruence. Qed.

Lemma numeral_line_char (c : ascii) : numeral_char c = true -> line_char c = true.
Proof. ascii_cases c; vm_compute; congruence. Qed.

Lemma str_int_line (n : Z) : all_chars line_char (Py.str_int n) = true.
Proof.
  apply (all_chars_weaken numeral_char); [exact numeral_line_char|].
  apply str_int_numeral_chars.
Qed.

Lemma rjust_line (width : nat) (s : string) :
  all_chars line_char s = true -> all_chars line_char (Py.rjust width s) = true.
Proof.
  intros Hs. unfold Py.rjust. apply all_chars_append_true; [|exact Hs].
  apply all_chars_repeat_nat. reflexivity.
Qed.

Lemma d_line (width : nat) (n : Z) : all_chars line_char (Fmt.d width n) = true.
Proof. apply rjust_line, str_int_line. Qed.

Lemma d_zero_line (width : nat) (n : Z) : all_chars line_char (Fmt.d_zero width n) = true.
Proof.
  unfold Fmt.d_zero, Fmt.zeros.
  destruct (n <? 0);
    repeat (apply all_chars_append_true);
    try apply str_int_line; try (apply all_chars_repeat_nat); reflexivity.
Qed.

Lemma f1_line (x : Q) : all_chars line_char (Fmt.f1 x) = true.
Proof.
  unfold Fmt.f1.
  destruct (Qlt_le_dec x 0);
    repeat (apply all_chars_append_true);
    try apply str_int_line; reflexivity.
Qed.

Lemma f1w_line (width : nat) (x : Q) : all_chars line_char (Fmt.f1w width x) = true.
Proof. apply rjust_line, f1_line. Qed.

Lemma format_time_remaining_line (n : Z) :
  all_chars line_char (format_time_remaining n) = true.
Proof.
  unfold format_time_remaining.
  repeat (apply all_chars_append_true); try apply d_zero_line; reflexivity.
Qed.

Lemma format_duration_line (seconds : option Q) :
  all_chars line_char (format_duration seconds) = true.
Proof.
  unfold format_duration.
  destruct seconds as [x|]; [|reflexivity].
  destruct (Py.float_truthy x); [|reflexivity].
  repeat (apply all_chars_append_true); try apply d_zero_line; reflexivity.
Qed.

Lemma create_progress_bar_line (progress : Q) (width : Z) :
  all_chars line_char (create_progress_bar progress width) = true.
Proof.
  unfold create_progress_bar, Py.repeat.
  apply all_chars_append_true; apply all_chars_repeat_nat; reflexivity.
Qed.

(** The three groups of the time pattern are runs of digits, the third with
    one point inside. *)
Lemma time_at_groups (s h m sec : string) :
  Re.time_at s = Some (h, m, sec) ->
  all_chars Py.isdigit h = true
  /\ all_chars Py.isdigit m = true
  /\ exists whole frac,
       sec = whole ++ "." ++ frac
       /\ all_chars Py.isdigit whole = true /\ all_chars Py.isdigit frac = true.
Proof.
  unfold Re.time_at.
  destruct (Re.strip_prefix "time=" s) as [r|]; [|discriminate].
  destruct (Re.digits1 r) as [[h' r0]|] eqn:Hh; [|discriminate].
  destruct r0 as [|c0 r1]; [discriminate|].
  destruct (Ascii.eqb_spec c0 ":") as [->|Hc0];
    [|ascii_cases c0; try discriminate; congruence].
  destruct (Re.digits1 r1) as [[m' r1']|] eqn:Hm; [|discriminate].
  destruct r1' as [|c1 r2]; [discriminate|].
  destruct (Ascii.eqb_spec c1 ":") as [->|Hc1];
    [|ascii_cases c1; try discriminate; congruence].
  destruct (Re.digits1 r2) as [[sec' r2']|] eqn:Hs; [|discriminate].
  destruct r2' as [|c2 r3]; [discriminate|].
  destruct (Ascii.eqb_spec c2 ".") as [->|Hc2];
    [|ascii_cases c2; try discriminate; congruence].
  destruct (Re.digits1 r3) as [[frac rest]|] eqn:Hf; [|discriminate].
  intros H. injection H as <- <- <-.
  destruct (digits1_digits _ _ _ Hh) as [_ Hhd].
  destruct (digits1_digits _ _ _ Hm) as [_ Hmd].
  destruct (digits1_digits _ _ _ Hs) as [_ Hsd].
  destruct (digits1_digits _ _ _ Hf) as [_ Hfd].
  split; [exact Hhd|]. split; [exact Hmd|].
  exists sec', frac. repeat split; assumption.
Qed.

Lemma split_head_append (sep : ascii) (a b : string) :
  Py.contains sep a = false ->
  hd EmptyString (Py.split sep (a ++ String sep b)) = a.
Proof.
  intros Ha. rewrite split_append_sep, (split_no_sep _ _ Ha). reflexivity.
Qed.

(** The encoded time shown is the time of the line without its fraction. *)
Lemma encoded_time_groups (line : string) :
  (Re.time_re line = None /\ encoded_time_of (Re.time_re line) = "00:00:00")
  \/ exists h m whole frac,
       Re.time_re line = Some (h, m, whole ++ "." ++ frac)
       /\ all_chars Py.isdigit h = true
       /\ all_chars Py.isdigit m = true
       /\ all_chars Py.isdigit whole = true
       /\ encoded_time_of (Re.time_re line) = h ++ ":" ++ m ++ ":" ++ whole.
Proof.
  destruct (Re.time_re line) as [[[h m] sec]|] eqn:E; [|left; split; reflexivity].
  right. unfold Re.time_re in E.
  destruct (search_some _ _ _ E) as [u Hu].
  destruct (time_at_groups _ _ _ _ Hu) as [Hh [Hm [whole [frac [Hsec [Hw Hf]]]]]].
  exists h, m, whole, frac. subst sec. repeat split; try assumption.
  unfold encoded_time_of.
  change (whole ++ "." ++ frac) with (whole ++ String "." frac).
  rewrite split_head_append; [reflexivity|].
  apply (all_chars_not_contains Py.isdigit); [reflexivity | exact Hw].
Qed.

Lemma encoded_time_line (line : string) :
  all_chars line_char (encoded_time_of (Re.time_re line)) = true.
Proof.
  destruct (encoded_time_groups line)
    as [[_ ->]|[h [m [whole [frac [_ [Hh [Hm [Hw ->]]]]]]]]]; [reflexivity|].
  repeat (apply all_chars_append_true);
    try (apply (all_chars_weaken Py.isdigit); [exact digit_line_char | assumption]);
    reflexivity.
Qed.

Lemma extract_encoded_time (line : string) (s : ProgressSample) :
  extract line = Return s -> encoded_time s = encoded_time_of (Re.time_re line).
Proof.
  unfold extract, bind.
  destruct (float_group (Re.speed_re line)); [|discriminate].
  destruct (int_group (Re.fps_re line)); [|discriminate].
  destruct (int_group (Re.size_re line)); [|discriminate].
  destruct (float_group (Re.bitrate_re line)); [|discriminate].
  intros H. injection H as <-. reflexivity.
Qed.

(** X27.  A rendered status is one terminal line: a carriage return
    followed by text that holds neither a line feed nor another carriage
    return, whatever the line read and the probe's values are, so that each
    status overwrites the one before.  The encoded time in it is the time
    of the line without its fraction, or [00:00:00] when the line has
    none. *)
Theorem status_is_one_line (st : TrackerState) (raw : string) (r : RenderedStatus) :
  observe st raw = RenderStatus r ->
  (exists body,
     stdout_of (observe st raw) = CR ++ body /\ all_chars line_char body = true)
  /\ ((Re.time_re (Py.strip raw) = None /\ r_encoded_time r = "00:00:00")
      \/ exists h m whole frac,
           Re.time_re (Py.strip raw) = Some (h, m, whole ++ "." ++ frac)
           /\ all_chars Py.isdigit h = true
           /\ all_chars Py.isdigit m = true
           /\ all_chars Py.isdigit whole = true
           /\ r_encoded_time r = h ++ ":" ++ m ++ ":" ++ whole).
Proof.
  intros H. rewrite H. cbn [stdout_of].
  destruct (observe_status _ _ _ H) as [s [current [total [x [He [_ Hr]]]]]].
  pose proof (extract_encoded_time _ _ He) as Ht.
  assert (Htime : r_encoded_time r = encoded_time_of (Re.time_re (Py.strip raw))).
  { rewrite Hr. cbn [r_encoded_time status_of]. exact Ht. }
  split.
  - unfold enhanced_progress. eexists. split; [reflexivity|].
    rewrite Htime, Hr. cbn [r_current_frame r_total_frames r_progress_bar
      r_progress_percent r_current_fps r_current_size_mb r_estimated_final_size_mb
      r_video_duration_formatted r_time_remaining r_current_bitrate
      r_encoding_speed status_of].
    repeat first
      [ reflexivity
      | apply d_line | apply f1w_line | apply create_progress_bar_line
      | apply encoded_time_line | apply format_duration_line
      | apply format_time_remaining_line
      | apply all_chars_append_true ].
  - rewrite Htime. exact (encoded_time_groups (Py.strip raw)).
Qed.

Lemma status_is_one_line_witness :
  observe clip_state usual_line = RenderStatus usual_status
  /\ exists body,
       stdout_of (observe clip_state usual_line) = CR ++ body
       /\ all_chars line_char body = true.
Proof.
  assert (H : observe clip_state usual_line = RenderStatus usual_status)
    by (vm_compute; reflexivity).
  split; [exact H|].
  exact (proj1 (status_is_one_line clip_state usual_line usual_status H)).
Defined.
